(** * music21/sorting.py: the [SortTuple] sort key

    A shallow embedding of [music21.sorting.SortTuple] and of the fragment of
    Python its methods rely on (numbers and their comparisons, tuple
    comparison, [max], [min], [str], keyword dictionaries, exceptions),
    followed by the properties of the comparison protocol, of [modify],
    [add], [sub] and of [shortRepr]. *)

From Stdlib Require Import ZArith QArith Bool String DecimalString.
From stdpp Require Import gmap strings.

Local Open Scope string_scope.
Local Open Scope Z_scope.

(** ** Exceptions and results

    A call either returns a value or raises.  Only the exceptions that the
    methods of the module can meet are listed. *)

Inductive exn :=
| TypeError
| ValueError
| AttributeError
| OverflowError
| SortingException (msg : string).

Inductive result (A : Type) :=
| Ok (a : A)
| Raise (e : exn).

Arguments Ok {A} a.
Arguments Raise {A} e.

(** [result] is a monad; the notation [x ← m; k] and [mapM] are stdpp's. *)
Global Instance result_ret : MRet result := λ A a, Ok a.

Global Instance result_bind : MBind result := λ A B f m,
  match m with
  | Ok a => f a
  | Raise e => Raise e
  end.

(** ** Numbers

    The fields of a key and the offsets it is compared with are numbers:
    [int], [float], and [fractions.Fraction], which music21 uses for
    offsets that binary floats cannot hold.

    A [float] is modelled by its exact value: a rational, one of the two
    infinities, or a NaN (negative zero is not told apart from zero: they
    compare equal and are both false).  A NaN carries the identity of its
    object ([oid]): no comparison of numbers looks at it, but tuple
    comparison treats one object as equal to itself before it asks [==].
    Every other value is equal to itself, so its identity is never
    observable here. *)

Inductive pyfloat :=
| Fin (q : Q)
| PosInf
| NegInf
| NaN (oid : nat).

Inductive pynum :=
| PInt (z : Z)
| PFloat (f : pyfloat)
| PFrac (q : Q).

Definition INFINITY : pynum := PFloat PosInf.

(** The exact value of a number: Python compares numbers of different
    types exactly, not after rounding one to the type of the other. *)
Definition exact (n : pynum) : pyfloat :=
  match n with
  | PInt z => Fin (inject_Z z)
  | PFloat f => f
  | PFrac q => Fin q
  end.

(** Three-way comparison of two values; [None] when a NaN is involved
    (every ordered comparison with a NaN is false, and [==] is false). *)
Definition float_cmp (x y : pyfloat) : option comparison :=
  match x, y with
  | NaN _, _ | _, NaN _ => None
  | Fin p, Fin q => Some (Qcompare p q)
  | NegInf, NegInf => Some Eq
  | NegInf, _ => Some Lt
  | _, NegInf => Some Gt
  | PosInf, PosInf => Some Eq
  | PosInf, _ => Some Gt
  | _, PosInf => Some Lt
  end.

Definition num_cmp (x y : pynum) : option comparison :=
  float_cmp (exact x) (exact y).

Definition num_eqb (x y : pynum) : bool :=
  match num_cmp x y with Some Eq => true | _ => false end.

Definition num_ltb (x y : pynum) : bool :=
  match num_cmp x y with Some Lt => true | _ => false end.

Definition num_gtb (x y : pynum) : bool :=
  match num_cmp x y with Some Gt => true | _ => false end.

(** Truth value of a number ([if x:]): zero is false, everything else,
    the infinities and NaN included, is true. *)
Definition num_truth (x : pynum) : bool :=
  match exact x with
  | Fin q => negb (Qeq_bool q 0)
  | _ => true
  end.

(** [a is b] for numbers, as far as the embedding can tell them apart:
    only for NaN does identity say more than [==]. *)
Definition same_nan (x y : pynum) : bool :=
  match x, y with
  | PFloat (NaN i), PFloat (NaN j) => Nat.eqb i j
  | _, _ => false
  end.

(** Float arithmetic, the rounding of a rational within the range of
    floats and the printing of floats belong to the interpreter, not to
    the module: they are an interface of the development.  The arithmetic
    and the printing of [int] and [Fraction] are exact and defined below. *)
Class FloatArith := {
  float_add : pyfloat -> pyfloat -> pyfloat;
  float_sub : pyfloat -> pyfloat -> pyfloat;
  float_round : Q -> pyfloat;
  float_repr : pyfloat -> string
}.

(** [str(z)] for an [int]. *)
Definition int_str (z : Z) : string := NilZero.string_of_int (Z.to_int z).

(** [str(q)] for a [Fraction]: the numerator alone when the denominator of
    the reduced fraction is 1. *)
Definition frac_str (q : Q) : string :=
  let r := Qred q in
  if (Zpos (Qden r) =? 1)%Z then int_str (Qnum r)
  else int_str (Qnum r) ++ "/" ++ int_str (Zpos (Qden r)).

(** The least magnitude that no longer rounds to a float: halfway between
    the largest float, [2^1024 - 2^971], and [2^1024]. *)
Definition float_limit : Z := 2 ^ 1024 - 2 ^ 970.

(** Whether a rational rounds to a finite float. *)
Definition fits_float (q : Q) : bool :=
  match Qcompare (inject_Z (- float_limit)) q, Qcompare q (inject_Z float_limit) with
  | Lt, Lt => true
  | _, _ => false
  end.

Section Arithmetic.
Context `{FloatArith}.

(** The conversion of an [int] or a [Fraction] to a [float]: it raises
    [OverflowError] on a value beyond the range of floats. *)
Definition float_of_rational (q : Q) : result pyfloat :=
  if fits_float q then Ok (float_round q) else Raise OverflowError.

(** [float(x)] *)
Definition as_float (x : pynum) : result pyfloat :=
  match x with
  | PInt z => float_of_rational (inject_Z z)
  | PFloat f => Ok f
  | PFrac q => float_of_rational q
  end.

(** [x + y]: an [int] from two [int]s, a [Fraction] when a [Fraction]
    meets an [int] or a [Fraction], a [float] as soon as one operand is a
    [float]: the other operand is then converted, which may raise. *)
Definition py_add (x y : pynum) : result pynum :=
  match x, y with
  | PInt a, PInt b => Ok (PInt (a + b))
  | PInt a, PFrac q => Ok (PFrac (Qred (inject_Z a + q)))
  | PFrac p, PInt b => Ok (PFrac (Qred (p + inject_Z b)))
  | PFrac p, PFrac q => Ok (PFrac (Qred (p + q)))
  | _, _ => fx ← as_float x; fy ← as_float y; Ok (PFloat (float_add fx fy))
  end.

(** [x - y] *)
Definition py_sub (x y : pynum) : result pynum :=
  match x, y with
  | PInt a, PInt b => Ok (PInt (a - b))
  | PInt a, PFrac q => Ok (PFrac (Qred (inject_Z a - q)))
  | PFrac p, PInt b => Ok (PFrac (Qred (p - inject_Z b)))
  | PFrac p, PFrac q => Ok (PFrac (Qred (p - q)))
  | _, _ => fx ← as_float x; fy ← as_float y; Ok (PFloat (float_sub fx fy))
  end.

(** [str(x)] *)
Definition py_str (x : pynum) : string :=
  match x with
  | PInt z => int_str z
  | PFloat f => float_repr f
  | PFrac q => frac_str q
  end.

End Arithmetic.

(** [max(x, y)] and [min(x, y)]: the first argument is kept unless the
    second is strictly greater (resp. smaller). *)
Definition py_max (x y : pynum) : pynum := if num_gtb y x then y else x.
Definition py_min (x y : pynum) : pynum := if num_ltb y x then y else x.

(** ** Scalars, tuples and operands

    What a comparison or [add]/[sub] may receive as its right operand: a
    scalar (a number, a string, [None]), a plain tuple of scalars, or
    another [SortTuple]. *)

Inductive atom :=
| ANum (n : pynum)
| AStr (s : string)
| ANone.

(** The named tuple: six fields, in the order of [_fields]. *)
Record SortTuple := mkSortTuple {
  atEnd : pynum;
  offset : pynum;
  priority : pynum;
  classSortOrder : pynum;
  isNotGrace : pynum;
  insertIndex : pynum
}.

Inductive pyval :=
| VAtom (a : atom)
| VTuple (t : list atom)
| VSortTuple (k : SortTuple).

(** The value returned by a rich comparison method. *)
Inductive cmpres :=
| PyBool (b : bool)
| NotImplemented.

(** [bool(r)]: [NotImplemented] is true in a boolean context (a use
    deprecated since Python 3.9). *)
Definition truth (r : cmpres) : bool :=
  match r with
  | PyBool b => b
  | NotImplemented => true
  end.

(** [a == b] on scalars: values of unrelated types are unequal, and no
    exception is raised. *)
Definition py_eq (a b : atom) : bool :=
  match a, b with
  | ANum x, ANum y => num_eqb x y
  | AStr s, AStr t => String.eqb s t
  | ANone, ANone => true
  | _, _ => false
  end.

(** [a != b] *)
Definition py_ne (a b : atom) : bool := negb (py_eq a b).

(** [a < b] and [a > b] on scalars: numbers with numbers, strings with
    strings; any other pair is unorderable and raises [TypeError]. *)
Definition py_lt (a b : atom) : result bool :=
  match a, b with
  | ANum x, ANum y => Ok (num_ltb x y)
  | AStr s, AStr t => Ok (String.ltb s t)
  | _, _ => Raise TypeError
  end.

Definition py_gt (a b : atom) : result bool :=
  match a, b with
  | ANum x, ANum y => Ok (num_gtb x y)
  | AStr s, AStr t => Ok (String.ltb t s)
  | _, _ => Raise TypeError
  end.

(** The comparison a tuple applies to its items to find the first pair
    that differs: identity first, then [==]. *)
Definition item_eq (a b : atom) : bool :=
  match a, b with
  | ANum x, ANum y => same_nan x y || num_eqb x y
  | _, _ => py_eq a b
  end.

Inductive cmpop := Py_EQ | Py_LT | Py_GT.

Definition py_richcmp (op : cmpop) (a b : atom) : result bool :=
  match op with
  | Py_EQ => Ok (py_eq a b)
  | Py_LT => py_lt a b
  | Py_GT => py_gt a b
  end.

Definition len_richcmp (op : cmpop) (n m : nat) : bool :=
  match op with
  | Py_EQ => Nat.eqb n m
  | Py_LT => Nat.ltb n m
  | Py_GT => Nat.ltb m n
  end.

(** [tuple.__eq__], [tuple.__lt__], [tuple.__gt__] on two tuples: skip the
    common prefix of equal items; if one tuple is exhausted the lengths
    decide; otherwise [==] is false and an ordering is that of the first
    pair of items that differ. *)
Fixpoint tuple_richcmp (op : cmpop) (v w : list atom) : result bool :=
  match v, w with
  | x :: v', y :: w' =>
      if item_eq x y then tuple_richcmp op v' w'
      else match op with
           | Py_EQ => Ok false
           | _ => py_richcmp op x y
           end
  | _, _ => Ok (len_richcmp op (length v) (length w))
  end.

(** ** The class [SortTuple] *)

Definition _fields : list string :=
  ["atEnd"; "offset"; "priority"; "classSortOrder"; "isNotGrace"; "insertIndex"].

(** [getattr(self, attr)] *)
Definition getattr (self : SortTuple) (attr : string) : result pynum :=
  if String.eqb attr "atEnd" then Ok (atEnd self)
  else if String.eqb attr "offset" then Ok (offset self)
  else if String.eqb attr "priority" then Ok (priority self)
  else if String.eqb attr "classSortOrder" then Ok (classSortOrder self)
  else if String.eqb attr "isNotGrace" then Ok (isNotGrace self)
  else if String.eqb attr "insertIndex" then Ok (insertIndex self)
  else Raise AttributeError.

(** [__new__] on an unpacked list of values, as [modify], [add] and [sub]
    call the class: the named tuple takes exactly six. *)
Definition __new__ (tupEls : list pynum) : result SortTuple :=
  match tupEls with
  | [a; o; p; c; g; i] => Ok (mkSortTuple a o p c g i)
  | _ => Raise TypeError
  end.

(** The instance seen as the tuple it is. *)
Definition astuple (self : SortTuple) : list atom :=
  [ANum (atEnd self); ANum (offset self); ANum (priority self);
   ANum (classSortOrder self); ANum (isNotGrace self); ANum (insertIndex self)].

(** [try: body except ValueError: return NotImplemented].  No comparison
    of the scalars modelled here raises [ValueError]: on them the handler
    is never entered, and any other exception passes through it. *)
Definition except_ValueError (body : result cmpres) : result cmpres :=
  match body with
  | Raise ValueError => Ok NotImplemented
  | r => r
  end.

(** [super().__eq__(other)] and its siblings, [other] being a tuple. *)
Definition super_richcmp (op : cmpop) (self : SortTuple) (t : list atom)
  : result cmpres :=
  b ← tuple_richcmp op (astuple self) t; Ok (PyBool b).

Definition __eq__ (self : SortTuple) (other : pyval) : result cmpres :=
  match other with
  | VTuple t => super_richcmp Py_EQ self t
  | VSortTuple k => super_richcmp Py_EQ self (astuple k)
  | VAtom other =>
      except_ValueError
        (if num_eqb (atEnd self) (PInt 1) && py_ne other (ANum INFINITY)
         then Ok (PyBool false)
         else if num_eqb (atEnd self) (PInt 1)
         then Ok (PyBool true)
         else Ok (PyBool (py_eq (ANum (offset self)) other)))
  end.

Definition __lt__ (self : SortTuple) (other : pyval) : result cmpres :=
  match other with
  | VTuple t => super_richcmp Py_LT self t
  | VSortTuple k => super_richcmp Py_LT self (astuple k)
  | VAtom other =>
      except_ValueError
        (if num_eqb (atEnd self) (PInt 1)
         then Ok (PyBool false)
         else b ← py_lt (ANum (offset self)) other; Ok (PyBool b))
  end.

Definition __gt__ (self : SortTuple) (other : pyval) : result cmpres :=
  match other with
  | VTuple t => super_richcmp Py_GT self t
  | VSortTuple k => super_richcmp Py_GT self (astuple k)
  | VAtom other =>
      except_ValueError
        (if num_eqb (atEnd self) (PInt 1) && py_ne other (ANum INFINITY)
         then Ok (PyBool true)
         else if num_eqb (atEnd self) (PInt 1)
         then Ok (PyBool false)
         else b ← py_gt (ANum (offset self)) other; Ok (PyBool b))
  end.

(** [not self.__eq__(other)] *)
Definition __ne__ (self : SortTuple) (other : pyval) : result cmpres :=
  r ← __eq__ self other; Ok (PyBool (negb (truth r))).

(** [self.__lt__(other) or self.__eq__(other)]: the left value if it is
    true, else the right one, which is only then evaluated. *)
Definition __le__ (self : SortTuple) (other : pyval) : result cmpres :=
  r ← __lt__ self other; if truth r then Ok r else __eq__ self other.

Definition __ge__ (self : SortTuple) (other : pyval) : result cmpres :=
  r ← __gt__ self other; if truth r then Ok r else __eq__ self other.

(** [attr in ('atEnd', 'isNotGrace')] *)
Definition is_flag (attr : string) : bool :=
  existsb (String.eqb attr) ["atEnd"; "isNotGrace"].

Definition modify (self : SortTuple) (keywords : gmap string pynum)
  : result SortTuple :=
  outList ← mapM (λ attr,
                    d ← getattr self attr;
                    Ok (default d (keywords !! attr))) _fields;
  __new__ outList.

Section Methods.
Context `{FloatArith}.

Definition shortRepr (self : SortTuple) : string :=
  let reprParts : list string := [] in
  let reprParts :=
    (reprParts ++
       [if num_truth (atEnd self) then "End" else py_str (offset self)])%list in
  let reprParts := (reprParts ++ [" <"])%list in
  let reprParts := (reprParts ++ [py_str (priority self)])%list in
  let reprParts := (reprParts ++ ["."])%list in
  let reprParts := (reprParts ++ [py_str (classSortOrder self)])%list in
  let reprParts :=
    if num_eqb (isNotGrace self) (PInt 0)
    then (reprParts ++ [".[Grace]"])%list
    else reprParts in
  let reprParts := (reprParts ++ ["."])%list in
  let reprParts := (reprParts ++ [py_str (insertIndex self)])%list in
  let reprParts := (reprParts ++ [">"])%list in
  String.concat "" reprParts.

Definition add (self : SortTuple) (other : pyval) : result SortTuple :=
  match other with
  | VSortTuple other =>
      outList ← mapM (λ attr,
                        if is_flag attr
                        then x ← getattr self attr; y ← getattr other attr;
                             Ok (py_max x y)
                        else x ← getattr self attr; y ← getattr other attr;
                             py_add x y) _fields;
      __new__ outList
  | _ => Raise (SortingException "Cannot add attributes from a different class")
  end.

Definition sub (self : SortTuple) (other : pyval) : result SortTuple :=
  match other with
  | VSortTuple other =>
      outList ← mapM (λ attr,
                        if is_flag attr
                        then x ← getattr self attr; y ← getattr other attr;
                             Ok (py_min x y)
                        else x ← getattr self attr; y ← getattr other attr;
                             py_sub x y) _fields;
      __new__ outList
  | _ => Raise (SortingException "Cannot add attributes from a different class")
  end.

End Methods.

(** The three module-level constants. *)
Definition ZeroSortTupleDefault : SortTuple :=
  mkSortTuple (PInt 0) (PFloat (Fin 0)) (PInt 0) (PInt 0) (PInt 1) (PInt 0).

Definition ZeroSortTupleLow : SortTuple :=
  mkSortTuple (PInt 0) (PFloat (Fin 0)) (PFloat NegInf) (PInt 0) (PInt 1) (PInt 0).

Definition ZeroSortTupleHigh : SortTuple :=
  mkSortTuple (PInt 0) (PFloat (Fin 0)) (PFloat PosInf) (PInt 0) (PInt 1) (PInt 0).

(** The two keys of the class docstring: a note at offset 4.0 and a
    barline stored at the end. *)
Definition st : SortTuple :=
  mkSortTuple (PInt 0) (PFloat (Fin 4)) (PInt 0) (PInt 20) (PInt 1) (PInt 7).

Definition ts_st : SortTuple :=
  mkSortTuple (PInt 1) (PFloat (Fin 0)) (PInt 0) (PInt (-5)) (PInt 1) (PInt 3).


(** A key whose priority is an [int] beyond the range of floats. *)
Definition huge_priority : SortTuple :=
  mkSortTuple (PInt 0) (PFloat (Fin 0)) (PInt (10 ^ 400)) (PInt 0) (PInt 1) (PInt 0).

(** ** An instance of the float interface for the doctests

    Arithmetic is exact on finite values, so it agrees with binary64
    wherever the exact result is representable, as in every doctest of the
    module.  Printing covers integral values of small magnitude ([4.0]),
    the infinities and NaN; on the other values it is left empty.  The
    identity given to a NaN that an operation produces is arbitrary. *)

Definition exact_add (x y : pyfloat) : pyfloat :=
  match x, y with
  | NaN i, _ => NaN i
  | _, NaN j => NaN j
  | PosInf, NegInf | NegInf, PosInf => NaN 0
  | PosInf, _ | _, PosInf => PosInf
  | NegInf, _ | _, NegInf => NegInf
  | Fin p, Fin q => Fin (Qred (p + q))
  end.

Definition exact_neg (x : pyfloat) : pyfloat :=
  match x with
  | Fin q => Fin (Qred (- q))
  | PosInf => NegInf
  | NegInf => PosInf
  | NaN i => NaN i
  end.

Definition integral_repr (x : pyfloat) : string :=
  match x with
  | Fin q =>
      if (Zpos (Qden (Qred q)) =? 1) && (Z.abs (Qnum (Qred q)) <? 10 ^ 16)
      then int_str (Qnum (Qred q)) ++ ".0"
      else ""
  | PosInf => "inf"
  | NegInf => "-inf"
  | NaN _ => "nan"
  end.

Definition doctest_floats : FloatArith := {|
  float_add := exact_add;
  float_sub := λ x y, exact_add x (exact_neg y);
  float_round := λ q, Fin (Qred q);
  float_repr := integral_repr
|}.

(** ** Vocabulary of the specification *)

Definition is_nan (x : pynum) : bool :=
  match exact x with
  | NaN _ => true
  | _ => false
  end.

(** A real number: any [int] or [Fraction], and any [float] but NaN. *)
Definition real (x : pynum) : Prop := is_nan x = false.

(** The six field values, in declared order. *)
Definition fields (k : SortTuple) : list pynum :=
  [atEnd k; offset k; priority k; classSortOrder k; isNotGrace k; insertIndex k].

Definition real_fields (k : SortTuple) : Prop := Forall real (fields k).

(** A boolean-as-integer value: one that [==] 0 or [==] 1. *)
Definition flag (x : pynum) : Prop :=
  num_eqb x (PInt 0) = true ∨ num_eqb x (PInt 1) = true.

(** "Equality requires all six fields equal." *)
Fixpoint all_eqb (v w : list pynum) : bool :=
  match v, w with
  | x :: v', y :: w' => num_eqb x y && all_eqb v' w'
  | [], [] => true
  | _, _ => false
  end.

(** "Standard lexicographic comparison over the six fields in declared
    order": the first fields decide when they differ, and the remaining
    ones when they are equal. *)
Fixpoint lex_ltb (v w : list pynum) : bool :=
  match v, w with
  | x :: v', y :: w' => num_ltb x y || (num_eqb x y && lex_ltb v' w')
  | [], _ :: _ => true
  | _, _ => false
  end.

(** A scalar operand that is not a number: a string or [None]. *)
Definition non_numeric (x : atom) : Prop :=
  match x with
  | ANum _ => False
  | AStr _ | ANone => True
  end.

(** The names [modify] recognizes among its keywords. *)
Definition recognized (keywords : gmap string pynum) : gmap string pynum :=
  filter (λ kv, kv.1 ∈ _fields) keywords.


(** An operand that is a key or a number. *)
Definition key_or_scalar (x : pyval) : Prop :=
  match x with
  | VSortTuple _ | VAtom (ANum _) => True
  | _ => False
  end.

(** "Element-wise tuple comparison" for equality: the same length, and
    items equal pair by pair. *)
Fixpoint items_eqb (v w : list atom) : bool :=
  match v, w with
  | x :: v', y :: w' => item_eq x y && items_eqb v' w'
  | [], [] => true
  | _, _ => false
  end.

(** The three relations between keys, as the operators decide them. *)
Definition key_eq (a b : SortTuple) : Prop :=
  __eq__ a (VSortTuple b) = Ok (PyBool true).

Definition key_lt (a b : SortTuple) : Prop :=
  __lt__ a (VSortTuple b) = Ok (PyBool true).

Definition key_gt (a b : SortTuple) : Prop :=
  __gt__ a (VSortTuple b) = Ok (PyBool true).

Definition exactly_one (P Q R : Prop) : Prop :=
  (P ∧ ¬ Q ∧ ¬ R) ∨ (¬ P ∧ Q ∧ ¬ R) ∨ (¬ P ∧ ¬ Q ∧ R).

(** Three-way lexicographic comparison of two lists of numbers; [None]
    when the deciding pair involves a NaN. *)
Fixpoint lex_cmp (v w : list pynum) : option comparison :=
  match v, w with
  | x :: v', y :: w' =>
      match num_cmp x y with
      | Some Eq => lex_cmp v' w'
      | c => c
      end
  | [], [] => Some Eq
  | [], _ :: _ => Some Lt
  | _ :: _, [] => Some Gt
  end.

Definition holds (op : cmpop) (c : option comparison) : bool :=
  match op, c with
  | Py_EQ, Some Eq | Py_LT, Some Lt | Py_GT, Some Gt => true
  | _, _ => false
  end.

(** ** Construction by call

    [SortTuple.__new__] hands its positional and keyword arguments over to
    the [__new__] of the named tuple, whose parameters are the six fields
    without defaults.  Python binds the arguments of such a call as
    follows: positional values fill the parameters from the left; a
    parameter filled positionally must not be named again; every other
    parameter must be named; and no other name may be passed.  Each
    violation raises [TypeError]. *)

Fixpoint bind_args (names : list string) (tupEls : list pynum)
    (keywords : gmap string pynum) : result (list pynum) :=
  match names, tupEls with
  | [], [] => if decide (keywords = ∅) then Ok [] else Raise TypeError
  | [], _ :: _ => Raise TypeError
  | name :: names', v :: tupEls' =>
      match keywords !! name with
      | Some _ => Raise TypeError
      | None => vs ← bind_args names' tupEls' keywords; Ok (v :: vs)
      end
  | name :: names', [] =>
      match keywords !! name with
      | Some v => vs ← bind_args names' [] (delete name keywords); Ok (v :: vs)
      | None => Raise TypeError
      end
  end.

(** The call of the class on positional values and keywords. *)
Definition SortTuple_call (tupEls : list pynum) (keywords : gmap string pynum)
  : result SortTuple :=
  vs ← bind_args _fields tupEls keywords; __new__ vs.

(** [_asdict()] of the named tuple: the fields by name. *)
Definition _asdict (k : SortTuple) : gmap string pynum :=
  list_to_map (zip _fields (fields k)).

(** The values that keywords give to a list of names, name by name. *)
Definition named_by (keywords : gmap string pynum)
  : list string → list pynum → Prop :=
  Forall2 (λ name v, keywords !! name = Some v).

(** The converse of a comparison operator. *)
Definition converse (op : cmpop) : cmpop :=
  match op with
  | Py_EQ => Py_EQ
  | Py_LT => Py_GT
  | Py_GT => Py_LT
  end.

(** [a <= b] between keys, as the operator decides it. *)
Definition key_le (a b : SortTuple) : Prop :=
  __le__ a (VSortTuple b) = Ok (PyBool true).

(** A finite number: neither an infinity nor NaN. *)
Definition finite (x : pynum) : Prop :=
  match exact x with
  | Fin _ => True
  | _ => False
  end.

(** A number of an exact type: an [int] or a [Fraction], whose sums and
    differences are not rounded. *)
Definition exact_type (x : pynum) : Prop :=
  match x with
  | PFloat _ => False
  | _ => True
  end.

(** * Properties *)

(** ** The order on numbers *)

Lemma Qcompare_eq_l p q r : Qcompare p q = Eq → Qcompare p r = Qcompare q r.
Proof. intros E. apply Qeq_alt in E. now rewrite E. Qed.

Lemma Qcompare_eq_r p q r : Qcompare q r = Eq → Qcompare p q = Qcompare p r.
Proof. intros E. apply Qeq_alt in E. now rewrite E. Qed.

Lemma Qcompare_trans c p q r :
  Qcompare p q = c → Qcompare q r = c → Qcompare p r = c.
Proof.
  destruct c; intros H1 H2.
  - now rewrite (Qcompare_eq_l _ _ _ H1).
  - apply Qlt_alt in H1, H2. apply Qlt_alt. now apply Qlt_trans with q.
  - apply Qgt_alt in H1, H2. apply Qgt_alt. now apply Qlt_trans with q.
Qed.

Lemma float_cmp_eq_l x y z :
  float_cmp x y = Some Eq → float_cmp x z = float_cmp y z.
Proof.
  destruct x, y, z; simpl; try congruence.
  intros [= E]. f_equal. now apply Qcompare_eq_l.
Qed.

Lemma float_cmp_eq_r x y z :
  float_cmp y z = Some Eq → float_cmp x y = float_cmp x z.
Proof.
  destruct x, y, z; simpl; try congruence.
  intros [= E]. f_equal. now apply Qcompare_eq_r.
Qed.

Lemma float_cmp_trans c x y z :
  float_cmp x y = Some c → float_cmp y z = Some c → float_cmp x z = Some c.
Proof.
  destruct x, y, z; simpl; try congruence.
  intros [= E1] [= E2]. f_equal. now apply Qcompare_trans with q0.
Qed.

Lemma float_cmp_antisym x y : float_cmp y x = CompOpp <$> float_cmp x y.
Proof.
  destruct x, y; simpl; try reflexivity.
  now rewrite <- Qcompare_antisym.
Qed.

Lemma float_cmp_refl x : (∀ i, x ≠ NaN i) → float_cmp x x = Some Eq.
Proof.
  destruct x; simpl; intros Hx; try reflexivity.
  - f_equal. apply Qeq_alt. reflexivity.
  - now destruct (Hx oid).
Qed.

Lemma num_cmp_real x y : real x → real y → ∃ c, num_cmp x y = Some c.
Proof.
  unfold real, is_nan, num_cmp.
  destruct (exact x), (exact y); simpl; try discriminate; eauto.
Qed.

Lemma num_cmp_antisym x y : num_cmp y x = CompOpp <$> num_cmp x y.
Proof. apply float_cmp_antisym. Qed.

Lemma num_cmp_refl x : real x → num_cmp x x = Some Eq.
Proof.
  unfold real, is_nan, num_cmp. intros Hx. apply float_cmp_refl.
  intros i E. now rewrite E in Hx.
Qed.

Lemma same_nan_real x y : real x → same_nan x y = false.
Proof.
  destruct x as [|[]|], y as [|[]|]; simpl; try reflexivity. discriminate.
Qed.

(** ** Tuple comparison on real numbers *)

Lemma item_eq_real x y : real x → item_eq (ANum x) (ANum y) = num_eqb x y.
Proof. intros Hx. simpl. now rewrite same_nan_real. Qed.

Lemma lex_cmp_real v w :
  Forall real v → Forall real w → ∃ c, lex_cmp v w = Some c.
Proof.
  intros Hv. revert w. induction Hv as [|x v Hx Hv IH]; intros w Hw.
  - destruct w; simpl; eauto.
  - destruct Hw as [|y w Hy Hw]; simpl; eauto.
    destruct (num_cmp_real x y Hx Hy) as [[] ->]; eauto.
Qed.

(** The tuple comparison of two tuples of real numbers is the three-way
    lexicographic comparison, read through the operator. *)
Lemma tuple_richcmp_real op v w :
  Forall real v →
  tuple_richcmp op (ANum <$> v) (ANum <$> w) = Ok (holds op (lex_cmp v w)).
Proof.
  intros Hv. revert w. induction Hv as [|x v Hx Hv IH]; intros w.
  - destruct w, op; reflexivity.
  - destruct w as [|y w]; [destruct op; reflexivity|].
    cbn [fmap list_fmap tuple_richcmp lex_cmp].
    rewrite (item_eq_real x y Hx). unfold num_eqb.
    destruct (num_cmp x y) as [[]|] eqn:E; [apply IH| | |];
      destruct op; simpl; unfold num_ltb, num_gtb; rewrite ?E; reflexivity.
Qed.

Lemma lex_ltb_cmp v w : lex_ltb v w = holds Py_LT (lex_cmp v w).
Proof.
  revert w. induction v as [|x v IH]; intros [|y w]; try reflexivity.
  simpl. rewrite IH. unfold num_ltb, num_eqb.
  now destruct (num_cmp x y) as [[]|].
Qed.

Lemma all_eqb_cmp v w : all_eqb v w = holds Py_EQ (lex_cmp v w).
Proof.
  revert w. induction v as [|x v IH]; intros [|y w]; try reflexivity.
  simpl. rewrite IH. unfold num_eqb.
  now destruct (num_cmp x y) as [[]|].
Qed.

Lemma lex_cmp_lt_trans u v w :
  lex_cmp u v = Some Lt → lex_cmp v w = Some Lt → lex_cmp u w = Some Lt.
Proof.
  revert v w. induction u as [|x u IH]; intros [|y v] [|z w]; simpl;
    try congruence.
  unfold num_cmp.
  destruct (float_cmp (exact x) (exact y)) as [[]|] eqn:E1; try congruence;
    destruct (float_cmp (exact y) (exact z)) as [[]|] eqn:E2; try congruence;
    intros H1 H2.
  - rewrite (float_cmp_eq_l _ _ _ E1), E2. eauto.
  - now rewrite (float_cmp_eq_l _ _ _ E1), E2.
  - now rewrite <- (float_cmp_eq_r _ _ _ E2), E1.
  - now rewrite (float_cmp_trans _ _ _ _ E1 E2).
Qed.

Lemma astuple_fields k : astuple k = ANum <$> fields k.
Proof. reflexivity. Qed.

(** Key against key: each primitive operator returns the boolean that the
    three-way comparison of the fields gives. *)
Lemma key_richcmp a b :
  real_fields a →
  __eq__ a (VSortTuple b) = Ok (PyBool (holds Py_EQ (lex_cmp (fields a) (fields b))))
  ∧ __lt__ a (VSortTuple b) = Ok (PyBool (holds Py_LT (lex_cmp (fields a) (fields b))))
  ∧ __gt__ a (VSortTuple b) = Ok (PyBool (holds Py_GT (lex_cmp (fields a) (fields b)))).
Proof.
  intros Ha. unfold __eq__, __lt__, __gt__, super_richcmp.
  rewrite !astuple_fields, !tuple_richcmp_real by exact Ha. auto.
Qed.

Lemma real_fields_intro a o p c g i :
  real a → real o → real p → real c → real g → real i →
  real_fields (mkSortTuple a o p c g i).
Proof. intros. unfold real_fields, fields; simpl. repeat constructor; assumption. Qed.

(** C4. Key against key, the fields being real numbers: [==] holds iff all
    six fields are equal, [<] is the lexicographic order of the fields in
    declared order, exactly one of [a < b], [a == b], [a > b] holds, and
    [<] is transitive.  (The third key of the transitivity may be any key:
    only the left operands of the comparisons made need real fields.) *)
Theorem key_total_order (a b c : SortTuple) :
  real_fields a → real_fields b →
  __eq__ a (VSortTuple b) = Ok (PyBool (all_eqb (fields a) (fields b)))
  ∧ __lt__ a (VSortTuple b) = Ok (PyBool (lex_ltb (fields a) (fields b)))
  ∧ exactly_one (key_lt a b) (key_eq a b) (key_gt a b)
  ∧ (key_lt a b → key_lt b c → key_lt a c).
Proof.
  intros Ha Hb.
  destruct (key_richcmp a b Ha) as (Eab & Lab & Gab).
  destruct (key_richcmp b c Hb) as (_ & Lbc & _).
  destruct (key_richcmp a c Ha) as (_ & Lac & _).
  rewrite all_eqb_cmp, lex_ltb_cmp.
  repeat split; [exact Eab | exact Lab | |].
  - unfold exactly_one, key_lt, key_eq, key_gt. rewrite Eab, Lab, Gab.
    destruct (lex_cmp_real (fields a) (fields b) Ha Hb) as [[] ->]; simpl.
    + right; left. repeat split; congruence.
    + left. repeat split; congruence.
    + right; right. repeat split; congruence.
  - unfold key_lt. rewrite Lab, Lbc, Lac.
    destruct (lex_cmp (fields a) (fields b)) as [[]|] eqn:E1;
      cbn [holds]; try (intros; discriminate).
    destruct (lex_cmp (fields b) (fields c)) as [[]|] eqn:E2;
      cbn [holds]; try (intros; discriminate).
    intros _ _. now rewrite (lex_cmp_lt_trans _ _ _ E1 E2).
Qed.

Lemma key_total_order_witness :
  __eq__ ZeroSortTupleLow (VSortTuple ZeroSortTupleDefault) = Ok (PyBool false)
  ∧ __lt__ ZeroSortTupleLow (VSortTuple ZeroSortTupleDefault) = Ok (PyBool true)
  ∧ exactly_one (key_lt ZeroSortTupleLow ZeroSortTupleDefault)
                (key_eq ZeroSortTupleLow ZeroSortTupleDefault)
                (key_gt ZeroSortTupleLow ZeroSortTupleDefault)
  ∧ (key_lt ZeroSortTupleLow ZeroSortTupleDefault →
     key_lt ZeroSortTupleDefault ZeroSortTupleHigh →
     key_lt ZeroSortTupleLow ZeroSortTupleHigh).
Proof.
  apply (key_total_order ZeroSortTupleLow ZeroSortTupleDefault ZeroSortTupleHigh);
    apply real_fields_intro; reflexivity.
Defined.

(** ** Key against scalar *)

Lemma num_eqb_0_not_1 x : num_eqb x (PInt 0) = true → num_eqb x (PInt 1) = false.
Proof.
  unfold num_eqb, num_cmp. intros E.
  destruct (float_cmp (exact x) (exact (PInt 0))) as [[]|] eqn:E0; try discriminate.
  now rewrite (float_cmp_eq_l _ _ (exact (PInt 1)) E0).
Qed.

(** C3. Key against a number [x]: with [atEnd == 1] the key is never less
    than [x], equals [x] iff [x] is positive infinity and is greater than
    [x] iff it is not; with [atEnd == 0] the three comparisons are those of
    [offset] with [x]; the other four fields play no part. *)
Theorem scalar_comparison (k : SortTuple) (x : pynum) :
  (num_eqb (atEnd k) (PInt 1) = true →
     __lt__ k (VAtom (ANum x)) = Ok (PyBool false)
     ∧ __eq__ k (VAtom (ANum x)) = Ok (PyBool (num_eqb x INFINITY))
     ∧ __gt__ k (VAtom (ANum x)) = Ok (PyBool (negb (num_eqb x INFINITY))))
  ∧ (num_eqb (atEnd k) (PInt 0) = true →
     __lt__ k (VAtom (ANum x)) = Ok (PyBool (num_ltb (offset k) x))
     ∧ __eq__ k (VAtom (ANum x)) = Ok (PyBool (num_eqb (offset k) x))
     ∧ __gt__ k (VAtom (ANum x)) = Ok (PyBool (num_gtb (offset k) x)))
  ∧ (∀ k' : SortTuple, atEnd k' = atEnd k → offset k' = offset k →
     __lt__ k' (VAtom (ANum x)) = __lt__ k (VAtom (ANum x))
     ∧ __eq__ k' (VAtom (ANum x)) = __eq__ k (VAtom (ANum x))
     ∧ __gt__ k' (VAtom (ANum x)) = __gt__ k (VAtom (ANum x))).
Proof.
  split; [|split].
  - intros E1. unfold __lt__, __eq__, __gt__, py_ne. rewrite E1. simpl.
    now destruct (num_eqb x INFINITY).
  - intros E0. apply num_eqb_0_not_1 in E0.
    unfold __lt__, __eq__, __gt__. now rewrite E0.
  - intros k' Ea Eo. unfold __lt__, __eq__, __gt__. now rewrite Ea, Eo.
Qed.

Lemma scalar_comparison_witness :
  (__lt__ ts_st (VAtom (ANum (PInt 999999))) = Ok (PyBool false)
   ∧ __eq__ ts_st (VAtom (ANum (PInt 999999))) = Ok (PyBool false)
   ∧ __gt__ ts_st (VAtom (ANum (PInt 999999))) = Ok (PyBool true))
  ∧ (__lt__ st (VAtom (ANum (PFloat (Fin 5)))) = Ok (PyBool true)
     ∧ __eq__ st (VAtom (ANum (PFloat (Fin 5)))) = Ok (PyBool false)
     ∧ __gt__ st (VAtom (ANum (PFloat (Fin 5)))) = Ok (PyBool false)).
Proof.
  split.
  - exact (proj1 (scalar_comparison ts_st (PInt 999999)) eq_refl).
  - exact (proj1 (proj2 (scalar_comparison st (PFloat (Fin 5)))) eq_refl).
Defined.

(** ** Derived operators *)

(** Tuples of numbers are always comparable: no item comparison raises. *)
Lemma tuple_richcmp_num op v w :
  ∃ b, tuple_richcmp op (ANum <$> v) (ANum <$> w) = Ok b.
Proof.
  revert w. induction v as [|x v IH]; intros [|y w]; simpl; eauto.
  destruct (same_nan x y || num_eqb x y); [apply IH|].
  destruct op; simpl; eauto.
Qed.

(** Each primitive comparison with a key or a number returns a boolean. *)
Lemma primitive_bool k x :
  key_or_scalar x →
  ∃ e l g, __eq__ k x = Ok (PyBool e) ∧ __lt__ k x = Ok (PyBool l)
           ∧ __gt__ k x = Ok (PyBool g).
Proof.
  destruct x as [[n| |]|t|b]; simpl; try contradiction; intros _.
  - unfold __eq__, __lt__, __gt__, py_ne.
    destruct (num_eqb (atEnd k) (PInt 1)); simpl;
      [destruct (negb (num_eqb n INFINITY))|]; simpl;
      do 3 eexists; repeat split; reflexivity.
  - unfold __eq__, __lt__, __gt__, super_richcmp. rewrite !astuple_fields.
    destruct (tuple_richcmp_num Py_EQ (fields k) (fields b)) as [e ->].
    destruct (tuple_richcmp_num Py_LT (fields k) (fields b)) as [l ->].
    destruct (tuple_richcmp_num Py_GT (fields k) (fields b)) as [g ->].
    simpl. do 3 eexists; repeat split; reflexivity.
Qed.

(** C6. For a key [k] and an operand [x] that is a key or a number, each
    primitive comparison returns a boolean, and the derived operators
    return the stated combinations of them: [k != x] is [not (k == x)],
    [k <= x] is [(k < x) or (k == x)], [k >= x] is [(k > x) or (k == x)]. *)
Theorem derived_relations (k : SortTuple) (x : pyval) :
  key_or_scalar x →
  ∃ e l g : bool,
    __eq__ k x = Ok (PyBool e)
    ∧ __lt__ k x = Ok (PyBool l)
    ∧ __gt__ k x = Ok (PyBool g)
    ∧ __ne__ k x = Ok (PyBool (negb e))
    ∧ __le__ k x = Ok (PyBool (l || e))
    ∧ __ge__ k x = Ok (PyBool (g || e)).
Proof.
  intros Hx. destruct (primitive_bool k x Hx) as (e & l & g & He & Hl & Hg).
  exists e, l, g. unfold __ne__, __le__, __ge__. rewrite He, Hl, Hg. simpl.
  repeat split; [now destruct l | now destruct g].
Qed.

Lemma derived_relations_witness :
  ∃ e l g : bool,
    __eq__ st (VSortTuple ts_st) = Ok (PyBool e)
    ∧ __lt__ st (VSortTuple ts_st) = Ok (PyBool l)
    ∧ __gt__ st (VSortTuple ts_st) = Ok (PyBool g)
    ∧ __ne__ st (VSortTuple ts_st) = Ok (PyBool (negb e))
    ∧ __le__ st (VSortTuple ts_st) = Ok (PyBool (l || e))
    ∧ __ge__ st (VSortTuple ts_st) = Ok (PyBool (g || e)).
Proof. exact (derived_relations st (VSortTuple ts_st) I). Defined.

(** ** Tuple operands *)

Lemma item_eq_refl a : item_eq a a = true.
Proof.
  destruct a as [x| |]; simpl; [|apply String.eqb_refl|reflexivity].
  destruct (is_nan x) eqn:E.
  - destruct x as [|[]|]; try discriminate. simpl. now rewrite Nat.eqb_refl.
  - unfold num_eqb. rewrite (num_cmp_refl x E). apply orb_true_r.
Qed.

Lemma tuple_eq_items v w : tuple_richcmp Py_EQ v w = Ok (items_eqb v w).
Proof.
  revert w. induction v as [|x v IH]; intros [|y w]; try reflexivity.
  simpl. destruct (item_eq x y); [apply IH|reflexivity].
Qed.

Lemma items_eqb_refl v : items_eqb v v = true.
Proof. induction v as [|x v IH]; simpl; [|rewrite item_eq_refl]; auto. Qed.

(** C9. Against any tuple, plain or [SortTuple], the three primitive
    operators are the element-wise comparisons of tuples, the key being
    read as the tuple of its six fields: [==] says that the two tuples have
    the same length and equal items, [<] and [>] are [tuple]'s own, and a
    [SortTuple] operand is treated as the plain tuple of its fields.  In
    particular a key equals the plain tuple of its own field values. *)
Theorem tuple_operand (k : SortTuple) :
  (∀ t : list atom,
     __eq__ k (VTuple t) = Ok (PyBool (items_eqb (astuple k) t))
     ∧ __lt__ k (VTuple t) = (b ← tuple_richcmp Py_LT (astuple k) t; Ok (PyBool b))
     ∧ __gt__ k (VTuple t) = (b ← tuple_richcmp Py_GT (astuple k) t; Ok (PyBool b)))
  ∧ (∀ b : SortTuple,
     __eq__ k (VSortTuple b) = __eq__ k (VTuple (astuple b))
     ∧ __lt__ k (VSortTuple b) = __lt__ k (VTuple (astuple b))
     ∧ __gt__ k (VSortTuple b) = __gt__ k (VTuple (astuple b)))
  ∧ __eq__ k (VTuple (astuple k)) = Ok (PyBool true).
Proof.
  assert (Heq : ∀ t, __eq__ k (VTuple t) = Ok (PyBool (items_eqb (astuple k) t))).
  { intros t. unfold __eq__, super_richcmp. now rewrite tuple_eq_items. }
  split; [|split].
  - intros t. now rewrite Heq.
  - now intros b.
  - now rewrite Heq, items_eqb_refl.
Qed.

(** ** Operands that are not numbers *)

(** C2, as the code has it.  For an operand [x] that is a string or [None]:
    [k == x] returns [False]; when [k.atEnd == 1], [k < x] returns [False]
    and [k > x] returns [True], the operand not being looked at; and none
    of the three returns [NotImplemented]. *)
Theorem non_numeric_operand (k : SortTuple) (x : atom) :
  non_numeric x →
  __eq__ k (VAtom x) = Ok (PyBool false)
  ∧ (num_eqb (atEnd k) (PInt 1) = true →
     __lt__ k (VAtom x) = Ok (PyBool false)
     ∧ __gt__ k (VAtom x) = Ok (PyBool true))
  ∧ __eq__ k (VAtom x) ≠ Ok NotImplemented
  ∧ __lt__ k (VAtom x) ≠ Ok NotImplemented
  ∧ __gt__ k (VAtom x) ≠ Ok NotImplemented.
Proof.
  intros Hx. unfold __eq__, __lt__, __gt__.
  destruct x as [n|s|]; [contradiction| |];
    destruct (num_eqb (atEnd k) (PInt 1)); simpl;
    repeat split; try discriminate; intros [=].
Qed.

Lemma non_numeric_operand_witness :
  __eq__ ts_st (VAtom ANone) = Ok (PyBool false)
  ∧ (num_eqb (atEnd ts_st) (PInt 1) = true →
     __lt__ ts_st (VAtom ANone) = Ok (PyBool false)
     ∧ __gt__ ts_st (VAtom ANone) = Ok (PyBool true))
  ∧ __eq__ ts_st (VAtom ANone) ≠ Ok NotImplemented
  ∧ __lt__ ts_st (VAtom ANone) ≠ Ok NotImplemented
  ∧ __gt__ ts_st (VAtom ANone) ≠ Ok NotImplemented.
Proof. exact (non_numeric_operand ts_st ANone I). Defined.

(** C2 as stated fails: against the string ['abc'], the key of the barline
    answers [False], [False] and [True], where the claim has three
    [NotImplemented]. *)
Lemma non_numeric_operand_counterexample :
  non_numeric (AStr "abc")
  ∧ __eq__ ts_st (VAtom (AStr "abc")) = Ok (PyBool false)
  ∧ __lt__ ts_st (VAtom (AStr "abc")) = Ok (PyBool false)
  ∧ __gt__ ts_st (VAtom (AStr "abc")) = Ok (PyBool true)
  ∧ ¬ (__eq__ ts_st (VAtom (AStr "abc")) = Ok NotImplemented
       ∧ __lt__ ts_st (VAtom (AStr "abc")) = Ok NotImplemented
       ∧ __gt__ ts_st (VAtom (AStr "abc")) = Ok NotImplemented).
Proof. repeat split. intros (E & _). discriminate E. Qed.

(** With [atEnd == 0] the ordering of [offset] with a string is asked of
    Python, which raises [TypeError]; the handler of the method catches
    [ValueError] only. *)
Example st_lt_string : __lt__ st (VAtom (AStr "abc")) = Raise TypeError.
Proof. reflexivity. Qed.

(** ** [modify] *)

(** The list comprehension of [modify], field by field. *)
Lemma modify_unfold k keywords :
  modify k keywords =
  Ok (mkSortTuple (default (atEnd k) (keywords !! "atEnd"))
                  (default (offset k) (keywords !! "offset"))
                  (default (priority k) (keywords !! "priority"))
                  (default (classSortOrder k) (keywords !! "classSortOrder"))
                  (default (isNotGrace k) (keywords !! "isNotGrace"))
                  (default (insertIndex k) (keywords !! "insertIndex"))).
Proof. reflexivity. Qed.

Lemma lookup_recognized (keywords : gmap string pynum) attr :
  attr ∈ _fields → recognized keywords !! attr = keywords !! attr.
Proof.
  intros Hattr. unfold recognized. rewrite map_lookup_filter.
  destruct (keywords !! attr) as [v|]; simpl; [|reflexivity].
  now rewrite option_guard_True.
Qed.

Lemma elem_of_fields attr :
  attr ∈ _fields ↔
  attr = "atEnd" ∨ attr = "offset" ∨ attr = "priority"
  ∨ attr = "classSortOrder" ∨ attr = "isNotGrace" ∨ attr = "insertIndex".
Proof. unfold _fields. rewrite !elem_of_cons, elem_of_nil. tauto. Qed.

(** C1, as the code has it.  [modify] signals no error, whatever the
    keywords: it returns a key, and a name that is not one of the six
    fields is ignored, the result being that of [modify] with the
    recognized names alone. *)
Theorem modify_ignores_unrecognized (k : SortTuple) (keywords : gmap string pynum) :
  (∃ r : SortTuple, modify k keywords = Ok r)
  ∧ modify k keywords = modify k (recognized keywords).
Proof.
  split; [rewrite modify_unfold; eauto|].
  rewrite !modify_unfold.
  rewrite !lookup_recognized by (apply elem_of_fields; tauto).
  reflexivity.
Qed.

(** C1 as stated fails: a keyword that names no field raises nothing, and
    the key comes back as it was. *)
Lemma modify_unrecognized_counterexample :
  ("bogus" ∈ dom ({[ "bogus" := PInt 5 ]} : gmap string pynum))
  ∧ ("bogus" ∉ _fields)
  ∧ modify st {[ "bogus" := PInt 5 ]} = Ok st
  ∧ ¬ (∃ e : exn, modify st {[ "bogus" := PInt 5 ]} = Raise e).
Proof.
  split; [set_solver|]. split; [rewrite elem_of_fields; intuition discriminate|].
  split; [reflexivity|]. intros [e E]. discriminate E.
Qed.

(** C7. [modify] returns a new key in which each field named by the
    overrides has the supplied value and every other field has the value
    it has in the receiver.  The receiver is a value: no operation of the
    class writes to it. *)
Theorem modify_frame (a : SortTuple) (overrides : gmap string pynum) :
  ∃ b : SortTuple,
    modify a overrides = Ok b
    ∧ ∀ attr : string, attr ∈ _fields →
        getattr b attr = match overrides !! attr with
                         | Some v => Ok v
                         | None => getattr a attr
                         end.
Proof.
  rewrite modify_unfold. eexists; split; [reflexivity|].
  intros attr Hattr. apply elem_of_fields in Hattr.
  destruct Hattr as [ -> | [ -> | [ -> | [ -> | [ -> | -> ] ] ] ] ];
    cbn; now destruct (overrides !! _).
Qed.

(** ** [add] and [sub] *)

(** [max] and [min] return one of their arguments, and on real numbers the
    greater (resp. the smaller) of the two. *)
Lemma py_max_greatest x y :
  real x → real y →
  (py_max x y = x ∨ py_max x y = y)
  ∧ num_ltb (py_max x y) x = false ∧ num_ltb (py_max x y) y = false.
Proof.
  intros Hx Hy. unfold py_max, num_gtb, num_ltb.
  rewrite (num_cmp_antisym x y).
  destruct (num_cmp_real x y Hx Hy) as [[] E]; rewrite E; simpl;
    rewrite ?E, ?num_cmp_refl by assumption; auto.
  rewrite (num_cmp_antisym x y), E. auto.
Qed.

Lemma py_min_least x y :
  real x → real y →
  (py_min x y = x ∨ py_min x y = y)
  ∧ num_gtb (py_min x y) x = false ∧ num_gtb (py_min x y) y = false.
Proof.
  intros Hx Hy. unfold py_min, num_gtb, num_ltb.
  rewrite (num_cmp_antisym x y).
  destruct (num_cmp_real x y Hx Hy) as [[] E]; rewrite E; simpl;
    rewrite ?E, ?num_cmp_refl by assumption; auto.
  rewrite (num_cmp_antisym x y), E. auto.
Qed.

Section Combination.
Context `{FloatArith}.

(** The only error of [+] and [-] on numbers is the overflow of a
    conversion to [float]. *)
Lemma as_float_raises x e : as_float x = Raise e → e = OverflowError.
Proof.
  destruct x as [z|f|q]; simpl; unfold float_of_rational; try discriminate;
    destruct (fits_float _); try discriminate; now intros [= <-].
Qed.

Lemma py_add_raises x y e : py_add x y = Raise e → e = OverflowError.
Proof.
  destruct x as [a|f|p], y as [b|g|q]; simpl; try discriminate;
    repeat match goal with
           | |- context [float_of_rational ?r] =>
               destruct (float_of_rational r) as [?|?] eqn:?; simpl
           end;
    try discriminate; intros [= <-];
    match goal with
    | E : float_of_rational ?r = Raise _ |- _ =>
        unfold float_of_rational in E; destruct (fits_float r);
        [discriminate|now injection E as <-]
    end.
Qed.

Lemma py_sub_raises x y e : py_sub x y = Raise e → e = OverflowError.
Proof.
  destruct x as [a|f|p], y as [b|g|q]; simpl; try discriminate;
    repeat match goal with
           | |- context [float_of_rational ?r] =>
               destruct (float_of_rational r) as [?|?] eqn:?; simpl
           end;
    try discriminate; intros [= <-];
    match goal with
    | E : float_of_rational ?r = Raise _ |- _ =>
        unfold float_of_rational in E; destruct (fits_float r);
        [discriminate|now injection E as <-]
    end.
Qed.

(** The two list comprehensions, field by field: the sums (differences)
    are taken in the order of the fields, and the first that raises ends
    the call. *)
Lemma add_unfold (a b : SortTuple) :
  add a (VSortTuple b) =
    (o ← py_add (offset a) (offset b);
     p ← py_add (priority a) (priority b);
     c ← py_add (classSortOrder a) (classSortOrder b);
     i ← py_add (insertIndex a) (insertIndex b);
     Ok {| atEnd := py_max (atEnd a) (atEnd b);
           offset := o;
           priority := p;
           classSortOrder := c;
           isNotGrace := py_max (isNotGrace a) (isNotGrace b);
           insertIndex := i |}).
Proof.
  unfold add. cbn.
  destruct (py_add (offset a) (offset b)); [|reflexivity].
  destruct (py_add (priority a) (priority b)); [|reflexivity].
  destruct (py_add (classSortOrder a) (classSortOrder b)); [|reflexivity].
  now destruct (py_add (insertIndex a) (insertIndex b)).
Qed.

Lemma sub_unfold (a b : SortTuple) :
  sub a (VSortTuple b) =
    (o ← py_sub (offset a) (offset b);
     p ← py_sub (priority a) (priority b);
     c ← py_sub (classSortOrder a) (classSortOrder b);
     i ← py_sub (insertIndex a) (insertIndex b);
     Ok {| atEnd := py_min (atEnd a) (atEnd b);
           offset := o;
           priority := p;
           classSortOrder := c;
           isNotGrace := py_min (isNotGrace a) (isNotGrace b);
           insertIndex := i |}).
Proof.
  unfold sub. cbn.
  destruct (py_sub (offset a) (offset b)); [|reflexivity].
  destruct (py_sub (priority a) (priority b)); [|reflexivity].
  destruct (py_sub (classSortOrder a) (classSortOrder b)); [|reflexivity].
  now destruct (py_sub (insertIndex a) (insertIndex b)).
Qed.

(** What a returned key is, for [add] and for [sub]. *)
Lemma add_Ok (a b s : SortTuple) :
  add a (VSortTuple b) = Ok s ↔
  atEnd s = py_max (atEnd a) (atEnd b)
  ∧ py_add (offset a) (offset b) = Ok (offset s)
  ∧ py_add (priority a) (priority b) = Ok (priority s)
  ∧ py_add (classSortOrder a) (classSortOrder b) = Ok (classSortOrder s)
  ∧ isNotGrace s = py_max (isNotGrace a) (isNotGrace b)
  ∧ py_add (insertIndex a) (insertIndex b) = Ok (insertIndex s).
Proof.
  rewrite add_unfold. split.
  - destruct (py_add (offset a) (offset b)); [|discriminate].
    destruct (py_add (priority a) (priority b)); [|discriminate].
    destruct (py_add (classSortOrder a) (classSortOrder b)); [|discriminate].
    destruct (py_add (insertIndex a) (insertIndex b)); [|discriminate].
    simpl. intros [= <-]. simpl. repeat split.
  - intros (Ha & -> & -> & -> & Hg & ->). simpl. destruct s; simpl in *.
    now subst.
Qed.

Lemma sub_Ok (a b d : SortTuple) :
  sub a (VSortTuple b) = Ok d ↔
  atEnd d = py_min (atEnd a) (atEnd b)
  ∧ py_sub (offset a) (offset b) = Ok (offset d)
  ∧ py_sub (priority a) (priority b) = Ok (priority d)
  ∧ py_sub (classSortOrder a) (classSortOrder b) = Ok (classSortOrder d)
  ∧ isNotGrace d = py_min (isNotGrace a) (isNotGrace b)
  ∧ py_sub (insertIndex a) (insertIndex b) = Ok (insertIndex d).
Proof.
  rewrite sub_unfold. split.
  - destruct (py_sub (offset a) (offset b)); [|discriminate].
    destruct (py_sub (priority a) (priority b)); [|discriminate].
    destruct (py_sub (classSortOrder a) (classSortOrder b)); [|discriminate].
    destruct (py_sub (insertIndex a) (insertIndex b)); [|discriminate].
    simpl. intros [= <-]. simpl. repeat split.
  - intros (Ha & -> & -> & -> & Hg & ->). simpl. destruct d; simpl in *.
    now subst.
Qed.

Lemma add_raises (a b : SortTuple) e :
  add a (VSortTuple b) = Raise e → e = OverflowError.
Proof.
  rewrite add_unfold.
  destruct (py_add (offset a) (offset b)) eqn:E1;
    [|simpl; intros [= <-]; exact (py_add_raises _ _ _ E1)].
  destruct (py_add (priority a) (priority b)) eqn:E2;
    [|simpl; intros [= <-]; exact (py_add_raises _ _ _ E2)].
  destruct (py_add (classSortOrder a) (classSortOrder b)) eqn:E3;
    [|simpl; intros [= <-]; exact (py_add_raises _ _ _ E3)].
  destruct (py_add (insertIndex a) (insertIndex b)) eqn:E4;
    [discriminate|simpl; intros [= <-]; exact (py_add_raises _ _ _ E4)].
Qed.

Lemma sub_raises (a b : SortTuple) e :
  sub a (VSortTuple b) = Raise e → e = OverflowError.
Proof.
  rewrite sub_unfold.
  destruct (py_sub (offset a) (offset b)) eqn:E1;
    [|simpl; intros [= <-]; exact (py_sub_raises _ _ _ E1)].
  destruct (py_sub (priority a) (priority b)) eqn:E2;
    [|simpl; intros [= <-]; exact (py_sub_raises _ _ _ E2)].
  destruct (py_sub (classSortOrder a) (classSortOrder b)) eqn:E3;
    [|simpl; intros [= <-]; exact (py_sub_raises _ _ _ E3)].
  destruct (py_sub (insertIndex a) (insertIndex b)) eqn:E4;
    [discriminate|simpl; intros [= <-]; exact (py_sub_raises _ _ _ E4)].
Qed.

(** C5, as the code has it.  For keys [a] and [b], [a.add(b)] (resp.
    [a.sub(b)]) returns a new key exactly when the four sums (resp.
    differences) of [offset], [priority], [classSortOrder] and
    [insertIndex] are defined: these fields of the key are then the sums
    (resp. the differences), and [atEnd] and [isNotGrace] are the [max]
    (resp. the [min]) of the operands' values.  Otherwise the call raises
    the [OverflowError] of the sum or difference that failed.  The
    operands are values: nothing writes to them. *)
Theorem add_sub_fields (a b : SortTuple) :
  (∀ s : SortTuple,
     add a (VSortTuple b) = Ok s ↔
     atEnd s = py_max (atEnd a) (atEnd b)
     ∧ py_add (offset a) (offset b) = Ok (offset s)
     ∧ py_add (priority a) (priority b) = Ok (priority s)
     ∧ py_add (classSortOrder a) (classSortOrder b) = Ok (classSortOrder s)
     ∧ isNotGrace s = py_max (isNotGrace a) (isNotGrace b)
     ∧ py_add (insertIndex a) (insertIndex b) = Ok (insertIndex s))
  ∧ (∀ d : SortTuple,
     sub a (VSortTuple b) = Ok d ↔
     atEnd d = py_min (atEnd a) (atEnd b)
     ∧ py_sub (offset a) (offset b) = Ok (offset d)
     ∧ py_sub (priority a) (priority b) = Ok (priority d)
     ∧ py_sub (classSortOrder a) (classSortOrder b) = Ok (classSortOrder d)
     ∧ isNotGrace d = py_min (isNotGrace a) (isNotGrace b)
     ∧ py_sub (insertIndex a) (insertIndex b) = Ok (insertIndex d))
  ∧ (∀ e : exn, add a (VSortTuple b) = Raise e → e = OverflowError)
  ∧ (∀ e : exn, sub a (VSortTuple b) = Raise e → e = OverflowError).
Proof.
  split; [intros s; apply add_Ok|].
  split; [intros d; apply sub_Ok|].
  split; intros e; [apply add_raises|apply sub_raises].
Qed.

Lemma py_max_flag x y : flag x → flag y → flag (py_max x y).
Proof. unfold py_max. now destruct (num_gtb y x). Qed.

Lemma py_min_flag x y : flag x → flag y → flag (py_min x y).
Proof. unfold py_min. now destruct (num_ltb y x). Qed.

(** C10. When the flags [atEnd] and [isNotGrace] of both operands are 0 or
    1, so are those of the key that [a.add(b)] returns and of the key that
    [a.sub(b)] returns. *)
Theorem flags_stay_boolean (a b : SortTuple) :
  flag (atEnd a) → flag (isNotGrace a) →
  flag (atEnd b) → flag (isNotGrace b) →
  (∀ s : SortTuple,
     add a (VSortTuple b) = Ok s → flag (atEnd s) ∧ flag (isNotGrace s))
  ∧ (∀ d : SortTuple,
     sub a (VSortTuple b) = Ok d → flag (atEnd d) ∧ flag (isNotGrace d)).
Proof.
  intros Haa Hag Hba Hbg. split.
  - intros s Hs. apply add_Ok in Hs as (-> & _ & _ & _ & -> & _).
    auto using py_max_flag.
  - intros d Hd. apply sub_Ok in Hd as (-> & _ & _ & _ & -> & _).
    auto using py_min_flag.
Qed.

End Combination.

(** C5 as stated fails: with an [int] priority beyond the range of floats
    and the infinite priority of [ZeroSortTupleHigh], the sum of the
    priorities raises [OverflowError], and [add] and [sub] return no key. *)
Lemma add_sub_overflow_counterexample :
  @add doctest_floats huge_priority (VSortTuple ZeroSortTupleHigh)
  = Raise OverflowError
  ∧ @sub doctest_floats huge_priority (VSortTuple ZeroSortTupleHigh)
    = Raise OverflowError
  ∧ ¬ (∃ s : SortTuple,
         @add doctest_floats huge_priority (VSortTuple ZeroSortTupleHigh) = Ok s).
Proof.
  assert (Hadd : @add doctest_floats huge_priority (VSortTuple ZeroSortTupleHigh)
                 = Raise OverflowError) by (vm_compute; reflexivity).
  split; [exact Hadd|]. split; [vm_compute; reflexivity|].
  intros [s Hs]. rewrite Hadd in Hs. discriminate Hs.
Qed.

Lemma flags_stay_boolean_witness :
  (∀ s : SortTuple,
     @add doctest_floats st (VSortTuple ts_st) = Ok s →
     flag (atEnd s) ∧ flag (isNotGrace s))
  ∧ (∀ d : SortTuple,
     @sub doctest_floats st (VSortTuple ts_st) = Ok d →
     flag (atEnd d) ∧ flag (isNotGrace d)).
Proof.
  apply (@flags_stay_boolean doctest_floats st ts_st);
    (left; reflexivity) || (right; reflexivity).
Defined.

(** On the two keys of the class docstring both calls return. *)
Example st_add_sub_ts_st :
  @add doctest_floats st (VSortTuple ts_st)
  = Ok (mkSortTuple (PInt 1) (PFloat (Fin 4)) (PInt 0) (PInt 15) (PInt 1) (PInt 10))
  ∧ @sub doctest_floats st (VSortTuple ts_st)
    = Ok (mkSortTuple (PInt 0) (PFloat (Fin 4)) (PInt 0) (PInt 25) (PInt 1) (PInt 4)).
Proof. split; reflexivity. Qed.

(** The doctests of [add] and [sub]. *)
Example add_doctest :
  @add doctest_floats
    (mkSortTuple (PInt 0) (PFloat (Fin 10)) (PInt 0) (PInt (-20)) (PInt 1) (PInt 0))
    (VSortTuple
       (mkSortTuple (PInt 0) (PFloat (Fin 10)) (PInt 0) (PInt 20) (PInt 1) (PInt 0)))
  = Ok (mkSortTuple (PInt 0) (PFloat (Fin 20)) (PInt 0) (PInt 0) (PInt 1) (PInt 0)).
Proof. reflexivity. Qed.

Example sub_doctest :
  @sub doctest_floats
    (mkSortTuple (PInt 0) (PFloat (Fin 10)) (PInt 0) (PInt (-20)) (PInt 1) (PInt 0))
    (VSortTuple
       (mkSortTuple (PInt 0) (PFloat (Fin 10)) (PInt 0) (PInt 20) (PInt 1) (PInt 0)))
  = Ok (mkSortTuple (PInt 0) (PFloat (Fin 0)) (PInt 0) (PInt (-40)) (PInt 1) (PInt 0)).
Proof. reflexivity. Qed.

(** ** [shortRepr] *)


Lemma num_truth_0 x : num_eqb x (PInt 0) = true → num_truth x = false.
Proof.
  unfold num_eqb, num_cmp, num_truth.
  destruct (exact x) as [q| | |]; simpl; try discriminate.
  destruct (Qcompare q (inject_Z 0)) eqn:E; try discriminate. intros _.
  apply Qeq_alt in E. apply negb_false_iff, Qeq_bool_iff. exact E.
Qed.


Section Representation.
Context `{FloatArith}.



End Representation.


(** The doctests of [shortRepr] and [modify]. *)
Example shortRepr_doctest :
  @shortRepr doctest_floats
    (mkSortTuple (PInt 0) (PFloat (Fin 1)) (PInt 0) (PInt 20) (PInt 1) (PInt 323))
  = "1.0 <0.20.323>".
Proof. reflexivity. Qed.

Example modify_doctest :
  (st2 ← modify (mkSortTuple (PInt 0) (PFloat (Fin 1)) (PInt 0) (PInt 20) (PInt 1) (PInt 32))
                {[ "offset" := PFloat (Fin 2) ]};
   st3 ← modify st2 {[ "atEnd" := PInt 1; "isNotGrace" := PInt 0 ]};
   Ok (@shortRepr doctest_floats st2, @shortRepr doctest_floats st3))
  = Ok ("2.0 <0.20.32>", "End <0.20.[Grace].32>").
Proof. reflexivity. Qed.

(** ** The scenarios of the class docstring and of the specification *)

Example st_lt_5 : __lt__ st (VAtom (ANum (PFloat (Fin 5)))) = Ok (PyBool true).
Proof. reflexivity. Qed.

Example st_gt_3 : __gt__ st (VAtom (ANum (PFloat (Fin 3)))) = Ok (PyBool true).
Proof. reflexivity. Qed.

Example st_eq_4 : __eq__ st (VAtom (ANum (PFloat (Fin 4)))) = Ok (PyBool true).
Proof. reflexivity. Qed.

Example st_lt_ts_st : __lt__ st (VSortTuple ts_st) = Ok (PyBool true).
Proof. reflexivity. Qed.

Example ts_st_gt_999999 : __gt__ ts_st (VAtom (ANum (PInt 999999))) = Ok (PyBool true).
Proof. reflexivity. Qed.

Example ts_st_eq_inf : __eq__ ts_st (VAtom (ANum INFINITY)) = Ok (PyBool true).
Proof. reflexivity. Qed.

(** Against a tuple an at-end key is compared item by item: it can be
    less than a plain tuple, which in scalar mode it never is. *)
Example ts_st_lt_tuple : __lt__ ts_st (VTuple [ANum (PInt 2)]) = Ok (PyBool true).
Proof. reflexivity. Qed.

(** Flag clamping: [atEnd=0, isNotGrace=1] combined with
    [atEnd=1, isNotGrace=0]. *)
Example flag_clamping :
  (s ← @add doctest_floats ZeroSortTupleDefault
         (VSortTuple (mkSortTuple (PInt 1) (PFloat (Fin 0)) (PInt 0) (PInt 0) (PInt 0) (PInt 0)));
   d ← @sub doctest_floats ZeroSortTupleDefault
         (VSortTuple (mkSortTuple (PInt 1) (PFloat (Fin 0)) (PInt 0) (PInt 0) (PInt 0) (PInt 0)));
   Ok (atEnd s, isNotGrace s, atEnd d, isNotGrace d))
  = Ok (PInt 1, PInt 1, PInt 0, PInt 0).
Proof. reflexivity. Qed.

(** * Further properties of the module *)

(** ** Construction *)

Lemma new_fields k : __new__ (fields k) = Ok k.
Proof. now destruct k. Qed.

Lemma new_Ok vs k : __new__ vs = Ok k ↔ fields k = vs.
Proof.
  split; [|intros <-; apply new_fields].
  destruct vs as [|a [|o [|p [|c [|g [|i [|]]]]]]]; try discriminate.
  now intros [= <-].
Qed.

Lemma new_raises vs e : __new__ vs = Raise e → e = TypeError.
Proof.
  destruct vs as [|a [|o [|p [|c [|g [|i [|]]]]]]]; try discriminate;
    now intros [= <-].
Qed.

Lemma bind_args_raises names tupEls keywords e :
  bind_args names tupEls keywords = Raise e → e = TypeError.
Proof.
  revert tupEls keywords.
  induction names as [|name names IH]; intros [|v l] kw; simpl.
  - destruct (decide (kw = ∅)); [discriminate|now intros [= <-]].
  - now intros [= <-].
  - destruct (kw !! name); [|now intros [= <-]].
    destruct (bind_args names [] (delete name kw)) eqn:E; [discriminate|].
    simpl. intros [= <-]. eauto.
  - destruct (kw !! name); [now intros [= <-]|].
    destruct (bind_args names l kw) eqn:E; [discriminate|].
    simpl. intros [= <-]. eauto.
Qed.

Lemma named_by_unique kw names vs vs' :
  named_by kw names vs → named_by kw names vs' → vs = vs'.
Proof.
  intros H. revert vs'. induction H as [|n v ns vs Hn H IH]; intros vs' H';
    inversion H' as [|? v' ? vs'' Hn' H'']; subst; [reflexivity|].
  rewrite Hn in Hn'. injection Hn' as <-. f_equal. now apply IH.
Qed.

Lemma named_by_delete kw name names vs :
  name ∉ names → named_by (delete name kw) names vs ↔ named_by kw names vs.
Proof.
  intros Hname. unfold named_by. split; intros H.
  - eapply Forall2_impl; [exact H|]. simpl. intros n v Hn.
    apply lookup_delete_Some in Hn. tauto.
  - induction H as [|n v ns vs Hn H IH]; constructor.
    + apply lookup_delete_Some. split; [|exact Hn].
      intros ->. apply Hname. now left.
    + apply IH. intros Hin. apply Hname. now right.
Qed.

Lemma not_elem_of_drop {A} (x : A) n l : x ∉ l → x ∉ drop n l.
Proof. intros Hx Hd. apply Hx. now apply (subseteq_drop n l). Qed.

Lemma bind_args_Ok_1 names tupEls (keywords : gmap string pynum) vs :
  NoDup names →
  bind_args names tupEls keywords = Ok vs →
  (length tupEls ≤ length names)%nat
  ∧ dom keywords = list_to_set (drop (length tupEls) names)
  ∧ ∃ named, vs = (tupEls ++ named)%list
     ∧ named_by keywords (drop (length tupEls) names) named.
Proof.
  intros Hnd. revert tupEls keywords vs.
  induction Hnd as [|name names Hname Hnd IH]; intros [|v l] kw vs; simpl.
  - destruct (decide (kw = ∅)) as [->|Hne]; [|discriminate].
    intros [= <-]. split; [lia|]. split; [now rewrite dom_empty_L|].
    exists []. split; [reflexivity|constructor].
  - discriminate.
  - destruct (kw !! name) as [v|] eqn:Hv; [|discriminate].
    destruct (bind_args names [] (delete name kw)) as [vs'|e] eqn:E;
      [|discriminate].
    simpl. intros [= <-].
    destruct (IH _ _ _ E) as (_ & Hdom & named & -> & HF).
    change (drop (length []) names) with names in Hdom, HF. simpl.
    split; [lia|]. split.
    + rewrite dom_delete_L in Hdom. apply elem_of_dom_2 in Hv.
      apply set_eq. intros n. rewrite elem_of_union, elem_of_singleton, <- Hdom.
      rewrite elem_of_difference, elem_of_singleton.
      destruct (decide (n = name)) as [->|Hn]; tauto.
    + exists (v :: named). split; [reflexivity|].
      constructor; [exact Hv|]. now apply (named_by_delete kw name).
  - destruct (kw !! name) as [w|] eqn:Hw; [discriminate|].
    destruct (bind_args names l kw) as [vs'|e] eqn:E; [|discriminate].
    simpl. intros [= <-].
    destruct (IH _ _ _ E) as (Hlen & Hdom & named & -> & HF).
    split; [lia|]. split; [exact Hdom|]. now exists named.
Qed.

Lemma bind_args_Ok_2 names tupEls (keywords : gmap string pynum) named :
  NoDup names →
  (length tupEls ≤ length names)%nat →
  dom keywords = list_to_set (drop (length tupEls) names) →
  named_by keywords (drop (length tupEls) names) named →
  bind_args names tupEls keywords = Ok (tupEls ++ named)%list.
Proof.
  intros Hnd. revert tupEls keywords named.
  induction Hnd as [|name names Hname Hnd IH]; intros [|v l] kw named; simpl;
    intros Hlen Hdom HF.
  - apply dom_empty_iff_L in Hdom as ->. inversion HF.
    now destruct (decide _).
  - lia.
  - inversion HF as [|? v ? named' Hv HF']; subst. rewrite Hv.
    rewrite (IH [] (delete name kw) named'); [reflexivity|simpl; lia| |].
    + change (drop (length []) names) with names.
      rewrite dom_delete_L, Hdom. apply set_eq. intros n.
      rewrite elem_of_difference, elem_of_union, elem_of_singleton,
        elem_of_list_to_set.
      split; [tauto|]. intros Hn. split; [tauto|]. now intros ->.
    + now apply named_by_delete.
  - assert (kw !! name = None) as ->.
    { apply not_elem_of_dom. rewrite Hdom, elem_of_list_to_set.
      now apply not_elem_of_drop. }
    rewrite (IH l kw named); [reflexivity|lia|exact Hdom|exact HF].
Qed.

Lemma NoDup_fields : NoDup _fields.
Proof. apply (bool_decide_unpack (NoDup _fields)). vm_compute. exact I. Qed.

Lemma call_Ok tupEls (keywords : gmap string pynum) k :
  SortTuple_call tupEls keywords = Ok k ↔
  (length tupEls ≤ 6)%nat
  ∧ dom keywords = list_to_set (drop (length tupEls) _fields)
  ∧ ∃ named, fields k = (tupEls ++ named)%list
     ∧ named_by keywords (drop (length tupEls) _fields) named.
Proof.
  unfold SortTuple_call. split.
  - destruct (bind_args _fields tupEls keywords) as [vs|e] eqn:E; [|discriminate].
    simpl. intros Hk. apply new_Ok in Hk. rewrite Hk.
    exact (bind_args_Ok_1 _ _ _ _ NoDup_fields E).
  - intros (Hlen & Hdom & named & Hk & Hnamed).
    rewrite (bind_args_Ok_2 _ _ _ named NoDup_fields Hlen Hdom Hnamed).
    simpl. now apply new_Ok.
Qed.

(** X1. The call of the class succeeds exactly when there are at most six
    positional values and the keywords name exactly the fields that the
    positional values leave over; the key then holds the positional values
    followed by the named ones.  Any other call raises [TypeError]. *)
Theorem call_binding (tupEls : list pynum) (keywords : gmap string pynum) :
  (∀ k : SortTuple,
     SortTuple_call tupEls keywords = Ok k ↔
     (length tupEls ≤ 6)%nat
     ∧ dom keywords = list_to_set (drop (length tupEls) _fields)
     ∧ ∃ named : list pynum,
         fields k = (tupEls ++ named)%list
         ∧ named_by keywords (drop (length tupEls) _fields) named)
  ∧ (∀ e : exn, SortTuple_call tupEls keywords = Raise e → e = TypeError).
Proof.
  split; [intros k; apply call_Ok|].
  intros e. unfold SortTuple_call.
  destruct (bind_args _fields tupEls keywords) as [vs|e'] eqn:E; simpl.
  - apply new_raises.
  - intros [= <-]. exact (bind_args_raises _ _ _ _ E).
Qed.

(** X2. A key is rebuilt by the call from its own values, however they are
    split between positional values and keywords: the first [n] fields
    positionally and the others by name, for any [n]. *)
Theorem call_round_trip (k : SortTuple) (n : nat) :
  SortTuple_call (take n (fields k)) (list_to_map (drop n (zip _fields (fields k))))
  = Ok k.
Proof.
  destruct k as [a o p c g i].
  destruct n as [|[|[|[|[|[|[|n]]]]]]]; reflexivity.
Qed.

(** ** [modify], once more *)

Lemma dom_asdict k : dom (_asdict k) = list_to_set _fields.
Proof. unfold _asdict. now rewrite dom_list_to_map_L. Qed.

Lemma dom_recognized (keywords : gmap string pynum) :
  dom (recognized keywords) ⊆ list_to_set _fields.
Proof.
  intros name Hname. apply elem_of_dom in Hname as [v Hv].
  apply map_lookup_filter_Some in Hv as [_ Hin]. now apply elem_of_list_to_set.
Qed.

Lemma lookup_overrides (keywords : gmap string pynum) k attr d :
  attr ∈ _fields → _asdict k !! attr = Some d →
  (recognized keywords ∪ _asdict k) !! attr = Some (default d (keywords !! attr)).
Proof.
  intros Hattr Hd. rewrite lookup_union, lookup_recognized, Hd by exact Hattr.
  now destruct (keywords !! attr).
Qed.

(** X3. [modify] is a reconstruction: its result is that of calling the
    class with the fields of the receiver by name, overridden by the
    keywords that name a field. *)
Theorem modify_is_call (k : SortTuple) (keywords : gmap string pynum) :
  modify k keywords = SortTuple_call [] (recognized keywords ∪ _asdict k).
Proof.
  rewrite modify_unfold. symmetry. apply call_Ok. split; [simpl; lia|]. split.
  - rewrite dom_union_L, dom_asdict. simpl.
    pose proof (dom_recognized keywords) as Hsub.
    apply set_eq. intros n. rewrite elem_of_union. split; [|tauto].
    intros [Hn|Hn]; [now apply Hsub|exact Hn].
  - eexists. split; [reflexivity|]. simpl.
    repeat (constructor;
            [apply lookup_overrides; [apply elem_of_fields; tauto|reflexivity]|]).
    constructor.
Qed.

(** X4. Two successive [modify] are one: the later keywords take
    precedence over the earlier ones. *)
Theorem modify_modify (k : SortTuple) (first second : gmap string pynum) :
  (k1 ← modify k first; modify k1 second) = modify k (second ∪ first).
Proof.
  rewrite (modify_unfold k first). simpl. rewrite !modify_unfold, !lookup_union.
  simpl. f_equal. f_equal;
    match goal with
    | |- context [second !! ?a] =>
        now destruct (second !! a), (first !! a)
    end.
Qed.

(** X5. [modify] without keywords returns the receiver, and [modify] with
    all six fields of another key returns that key: from [_asdict] to a
    key and back nothing is lost. *)
Theorem modify_asdict (k : SortTuple) :
  modify k ∅ = Ok k
  ∧ ∀ k' : SortTuple, modify k (_asdict k') = Ok k'.
Proof.
  split; [now destruct k|]. intros k'. now destruct k, k'.
Qed.

(** ** The comparisons, operand by operand *)

Lemma num_eqb_sym x y : num_eqb x y = num_eqb y x.
Proof.
  unfold num_eqb. rewrite (num_cmp_antisym x y).
  now destruct (num_cmp x y) as [[]|].
Qed.

Lemma num_ltb_gtb x y : num_ltb x y = num_gtb y x.
Proof.
  unfold num_ltb, num_gtb. rewrite (num_cmp_antisym x y).
  now destruct (num_cmp x y) as [[]|].
Qed.

Lemma same_nan_sym x y : same_nan x y = same_nan y x.
Proof.
  destruct x as [|[]|], y as [|[]|]; simpl; try reflexivity. apply Nat.eqb_sym.
Qed.

Lemma item_eq_sym a b : item_eq a b = item_eq b a.
Proof.
  destruct a as [x|s|], b as [y|t|]; simpl; try reflexivity.
  - now rewrite same_nan_sym, num_eqb_sym.
  - apply String.eqb_sym.
Qed.

Lemma py_eq_sym a b : py_eq a b = py_eq b a.
Proof.
  destruct a as [x|s|], b as [y|t|]; simpl; try reflexivity.
  - apply num_eqb_sym.
  - apply String.eqb_sym.
Qed.

Lemma py_lt_gt a b : py_lt a b = py_gt b a.
Proof.
  destruct a as [x|s|], b as [y|t|]; simpl; try reflexivity.
  now rewrite num_ltb_gtb.
Qed.

Lemma tuple_richcmp_converse op v w :
  tuple_richcmp op v w = tuple_richcmp (converse op) w v.
Proof.
  revert w. induction v as [|x v IH]; intros [|y w]; simpl.
  - now destruct op.
  - now destruct op.
  - now destruct op.
  - rewrite (item_eq_sym y x). destruct (item_eq x y); [apply IH|].
    destruct op; simpl; try reflexivity.
    + apply py_lt_gt.
    + symmetry. apply py_lt_gt.
Qed.

(** A common prefix plays no part in the comparison of two tuples. *)
Lemma tuple_richcmp_app op p v w :
  tuple_richcmp op (p ++ v)%list (p ++ w)%list = tuple_richcmp op v w.
Proof.
  induction p as [|x p IH]; [reflexivity|].
  simpl. now rewrite item_eq_refl.
Qed.

Lemma tuple_richcmp_refl op v :
  tuple_richcmp op v v = Ok (match op with Py_EQ => true | _ => false end).
Proof.
  rewrite <- (app_nil_r v), tuple_richcmp_app. now destruct op.
Qed.

(** X6. Between two keys the operators agree with their converses:
    [a < b] is [b > a], [a <= b] is [b >= a], and [==] and [!=] are
    symmetric, whatever the fields. *)
Theorem key_converse (a b : SortTuple) :
  __lt__ a (VSortTuple b) = __gt__ b (VSortTuple a)
  ∧ __le__ a (VSortTuple b) = __ge__ b (VSortTuple a)
  ∧ __eq__ a (VSortTuple b) = __eq__ b (VSortTuple a)
  ∧ __ne__ a (VSortTuple b) = __ne__ b (VSortTuple a).
Proof.
  assert (Hlt : __lt__ a (VSortTuple b) = __gt__ b (VSortTuple a)).
  { unfold __lt__, __gt__, super_richcmp.
    now rewrite (tuple_richcmp_converse Py_LT). }
  assert (Heq : __eq__ a (VSortTuple b) = __eq__ b (VSortTuple a)).
  { unfold __eq__, super_richcmp. now rewrite (tuple_richcmp_converse Py_EQ). }
  unfold __le__, __ge__, __ne__. now rewrite Hlt, Heq.
Qed.

(** X7. Every key equals itself: [k == k], [k <= k] and [k >= k] are
    [True], [k != k], [k < k] and [k > k] are [False], also when a field
    is NaN. *)
Theorem key_reflexive (k : SortTuple) :
  __eq__ k (VSortTuple k) = Ok (PyBool true)
  ∧ __le__ k (VSortTuple k) = Ok (PyBool true)
  ∧ __ge__ k (VSortTuple k) = Ok (PyBool true)
  ∧ __ne__ k (VSortTuple k) = Ok (PyBool false)
  ∧ __lt__ k (VSortTuple k) = Ok (PyBool false)
  ∧ __gt__ k (VSortTuple k) = Ok (PyBool false).
Proof.
  unfold __le__, __ge__, __ne__, __eq__, __lt__, __gt__, super_richcmp.
  rewrite !tuple_richcmp_refl. simpl. repeat split.
Qed.

(** X8. The plain tuple of the first [n] fields of a key, [n < 6], is
    less than the key, and a plain tuple that extends the key's own by
    further items is greater; neither is equal to the key. *)
Theorem prefix_tuples (k : SortTuple) (n : nat) (x : atom) (rest : list atom) :
  (n < 6)%nat →
  (__gt__ k (VTuple (take n (astuple k))) = Ok (PyBool true)
   ∧ __lt__ k (VTuple (take n (astuple k))) = Ok (PyBool false)
   ∧ __eq__ k (VTuple (take n (astuple k))) = Ok (PyBool false))
  ∧ (__lt__ k (VTuple (astuple k ++ x :: rest)) = Ok (PyBool true)
     ∧ __gt__ k (VTuple (astuple k ++ x :: rest)) = Ok (PyBool false)
     ∧ __eq__ k (VTuple (astuple k ++ x :: rest)) = Ok (PyBool false)).
Proof.
  intros Hn. unfold __gt__, __lt__, __eq__, super_richcmp. split.
  - destruct (drop n (astuple k)) as [|y more] eqn:Hdrop.
    { apply (f_equal length) in Hdrop. rewrite length_drop in Hdrop.
      simpl in Hdrop. lia. }
    pose proof (take_drop n (astuple k)) as Hk. rewrite Hdrop in Hk.
    set (t := take n (astuple k)) in *. rewrite <- Hk.
    rewrite <- (app_nil_r t) at 2 4 6.
    rewrite !tuple_richcmp_app. repeat split.
  - rewrite <- (app_nil_r (astuple k)) at 1 3 5.
    rewrite !tuple_richcmp_app. repeat split.
Qed.

Lemma prefix_tuples_witness :
  (__gt__ st (VTuple (take 2 (astuple st))) = Ok (PyBool true)
   ∧ __lt__ st (VTuple (take 2 (astuple st))) = Ok (PyBool false)
   ∧ __eq__ st (VTuple (take 2 (astuple st))) = Ok (PyBool false))
  ∧ (__lt__ st (VTuple (astuple st ++ [ANone])) = Ok (PyBool true)
     ∧ __gt__ st (VTuple (astuple st ++ [ANone])) = Ok (PyBool false)
     ∧ __eq__ st (VTuple (astuple st ++ [ANone])) = Ok (PyBool false)).
Proof. apply (prefix_tuples st 2 ANone []). lia. Defined.

(** ** The order of keys with real fields *)

Lemma lex_cmp_antisym v w : lex_cmp w v = CompOpp <$> lex_cmp v w.
Proof.
  revert w. induction v as [|x v IH]; intros [|y w]; try reflexivity.
  simpl. rewrite (num_cmp_antisym x y).
  destruct (num_cmp x y) as [[]|]; simpl; auto.
Qed.

Lemma lex_cmp_eq_l u v w :
  lex_cmp u v = Some Eq → lex_cmp u w = lex_cmp v w.
Proof.
  revert v w. induction u as [|x u IH]; intros [|y v] [|z w]; simpl;
    try congruence.
  unfold num_cmp.
  destruct (float_cmp (exact x) (exact y)) as [[]|] eqn:E; try congruence.
  intros H. rewrite (float_cmp_eq_l _ _ (exact z) E).
  destruct (float_cmp (exact y) (exact z)) as [[]|]; eauto.
Qed.

Lemma lex_cmp_eq_r u v w :
  lex_cmp v w = Some Eq → lex_cmp u v = lex_cmp u w.
Proof.
  intros E. rewrite (lex_cmp_antisym v u), (lex_cmp_antisym w u).
  f_equal. symmetry. apply lex_cmp_eq_l.
  rewrite (lex_cmp_antisym v w), E. reflexivity.
Qed.

Lemma key_eq_cmp a b :
  real_fields a → key_eq a b ↔ lex_cmp (fields a) (fields b) = Some Eq.
Proof.
  intros Ha. unfold key_eq. destruct (key_richcmp a b Ha) as (-> & _).
  destruct (lex_cmp (fields a) (fields b)) as [[]|]; simpl;
    split; congruence.
Qed.

Lemma key_lt_cmp a b :
  real_fields a → key_lt a b ↔ lex_cmp (fields a) (fields b) = Some Lt.
Proof.
  intros Ha. unfold key_lt. destruct (key_richcmp a b Ha) as (_ & -> & _).
  destruct (lex_cmp (fields a) (fields b)) as [[]|]; simpl;
    split; congruence.
Qed.

Lemma key_le_cmp a b :
  real_fields a →
  key_le a b ↔ lex_cmp (fields a) (fields b) = Some Lt
               ∨ lex_cmp (fields a) (fields b) = Some Eq.
Proof.
  intros Ha. unfold key_le, __le__.
  destruct (key_richcmp a b Ha) as (-> & -> & _).
  destruct (lex_cmp (fields a) (fields b)) as [[]|]; simpl;
    split; intuition congruence.
Qed.

(** X9. On keys with real fields [==] is transitive and [<] respects it:
    a key equal to one that is less than a third is less than the third,
    and a key less than one that equals a third is less than the third. *)
Theorem key_eq_congruence (a b c : SortTuple) :
  real_fields a → real_fields b →
  (key_eq a b → key_eq b c → key_eq a c)
  ∧ (key_eq a b → key_lt b c → key_lt a c)
  ∧ (key_lt a b → key_eq b c → key_lt a c).
Proof.
  intros Ha Hb.
  rewrite !(key_eq_cmp a), !(key_lt_cmp a), (key_eq_cmp b), (key_lt_cmp b)
    by assumption.
  repeat split.
  - intros E1 E2. now rewrite (lex_cmp_eq_l _ _ _ E1).
  - intros E1 E2. now rewrite (lex_cmp_eq_l _ _ _ E1).
  - intros E1 E2. now rewrite <- (lex_cmp_eq_r _ _ _ E2).
Qed.

(** The default key with an [int] offset, equal to the default key and
    distinct from it. *)
Lemma key_eq_congruence_witness :
  (key_eq ZeroSortTupleDefault
          (mkSortTuple (PInt 0) (PInt 0) (PInt 0) (PInt 0) (PInt 1) (PInt 0)) →
   key_eq (mkSortTuple (PInt 0) (PInt 0) (PInt 0) (PInt 0) (PInt 1) (PInt 0))
          ZeroSortTupleHigh →
   key_eq ZeroSortTupleDefault ZeroSortTupleHigh)
  ∧ (key_eq ZeroSortTupleDefault
            (mkSortTuple (PInt 0) (PInt 0) (PInt 0) (PInt 0) (PInt 1) (PInt 0)) →
     key_lt (mkSortTuple (PInt 0) (PInt 0) (PInt 0) (PInt 0) (PInt 1) (PInt 0))
            ZeroSortTupleHigh →
     key_lt ZeroSortTupleDefault ZeroSortTupleHigh)
  ∧ (key_lt ZeroSortTupleDefault
            (mkSortTuple (PInt 0) (PInt 0) (PInt 0) (PInt 0) (PInt 1) (PInt 0)) →
     key_eq (mkSortTuple (PInt 0) (PInt 0) (PInt 0) (PInt 0) (PInt 1) (PInt 0))
            ZeroSortTupleHigh →
     key_lt ZeroSortTupleDefault ZeroSortTupleHigh).
Proof.
  apply (key_eq_congruence ZeroSortTupleDefault
           (mkSortTuple (PInt 0) (PInt 0) (PInt 0) (PInt 0) (PInt 1) (PInt 0))
           ZeroSortTupleHigh);
    apply real_fields_intro; reflexivity.
Defined.

(** X10. On keys with real fields [<=] is a total order up to [==]: of two
    keys one is [<=] the other; two keys each [<=] the other are [==];
    [<=] is transitive; and [a <= b] holds exactly when [b < a] does not. *)
Theorem key_le_total_order (a b c : SortTuple) :
  real_fields a → real_fields b →
  (key_le a b ∨ key_le b a)
  ∧ (key_le a b → key_le b a → key_eq a b)
  ∧ (key_le a b → key_le b c → key_le a c)
  ∧ (key_le a b ↔ ¬ key_lt b a).
Proof.
  intros Ha Hb.
  rewrite (key_eq_cmp a), (key_lt_cmp b), !(key_le_cmp a), !(key_le_cmp b)
    by assumption.
  rewrite (lex_cmp_antisym (fields a) (fields b)).
  destruct (lex_cmp_real (fields a) (fields b) Ha Hb) as [cab Eab].
  rewrite Eab. split; [|split; [|split]].
  - destruct cab; cbn; auto.
  - destruct cab; cbn; intuition congruence.
  - intros H1 H2. destruct cab; [| |intuition congruence].
    + rewrite (lex_cmp_eq_l _ _ _ Eab). exact H2.
    + destruct H2 as [H2|H2].
      * left. exact (lex_cmp_lt_trans _ _ _ Eab H2).
      * left. now rewrite <- (lex_cmp_eq_r _ _ _ H2).
  - destruct cab; cbn; intuition congruence.
Qed.

Lemma key_le_total_order_witness :
  (key_le ZeroSortTupleLow ZeroSortTupleDefault
   ∨ key_le ZeroSortTupleDefault ZeroSortTupleLow)
  ∧ (key_le ZeroSortTupleLow ZeroSortTupleDefault →
     key_le ZeroSortTupleDefault ZeroSortTupleLow →
     key_eq ZeroSortTupleLow ZeroSortTupleDefault)
  ∧ (key_le ZeroSortTupleLow ZeroSortTupleDefault →
     key_le ZeroSortTupleDefault ZeroSortTupleHigh →
     key_le ZeroSortTupleLow ZeroSortTupleHigh)
  ∧ (key_le ZeroSortTupleLow ZeroSortTupleDefault
     ↔ ¬ key_lt ZeroSortTupleDefault ZeroSortTupleLow).
Proof.
  apply (key_le_total_order ZeroSortTupleLow ZeroSortTupleDefault ZeroSortTupleHigh);
    apply real_fields_intro; reflexivity.
Defined.

(** ** What decides the order of two keys *)

Lemma num_cmp_Some_same_nan x y c : num_cmp x y = Some c → same_nan x y = false.
Proof. destruct x as [|[]|], y as [|[]|]; simpl; try reflexivity. discriminate. Qed.

(** Wherever the three-way comparison of the fields is defined, the tuple
    comparison follows it. *)
Lemma tuple_richcmp_cmp op v w c :
  lex_cmp v w = Some c →
  tuple_richcmp op (ANum <$> v) (ANum <$> w) = Ok (holds op (Some c)).
Proof.
  revert w. induction v as [|x v IH]; intros [|y w]; simpl.
  - intros [= <-]. now destruct op.
  - intros [= <-]. now destruct op.
  - intros [= <-]. now destruct op.
  - destruct (num_cmp x y) as [cxy|] eqn:E; [|discriminate].
    rewrite (num_cmp_Some_same_nan _ _ _ E). unfold num_eqb. rewrite E.
    destruct cxy; [apply IH| |]; intros [= <-];
      destruct op; simpl; unfold num_ltb, num_gtb; rewrite ?E; reflexivity.
Qed.

Lemma key_cmp_lt a b :
  lex_cmp (fields a) (fields b) = Some Lt →
  __lt__ a (VSortTuple b) = Ok (PyBool true)
  ∧ __gt__ b (VSortTuple a) = Ok (PyBool true).
Proof.
  intros E. unfold __lt__, __gt__, super_richcmp. rewrite !astuple_fields.
  rewrite (tuple_richcmp_cmp Py_LT _ _ _ E).
  rewrite (tuple_richcmp_cmp Py_GT (fields b) (fields a) Gt).
  - auto.
  - now rewrite (lex_cmp_antisym (fields a) (fields b)), E.
Qed.

Lemma num_cmp_eq_l x y z : num_cmp x y = Some Eq → num_cmp x z = num_cmp y z.
Proof. apply float_cmp_eq_l. Qed.

Lemma num_cmp_eq_r x y z : num_cmp y z = Some Eq → num_cmp x y = num_cmp x z.
Proof. apply float_cmp_eq_r. Qed.

Lemma num_eqb_cmp x y : num_eqb x y = true ↔ num_cmp x y = Some Eq.
Proof. unfold num_eqb. destruct (num_cmp x y) as [[]|]; split; congruence. Qed.

Lemma num_ltb_cmp x y : num_ltb x y = true ↔ num_cmp x y = Some Lt.
Proof. unfold num_ltb. destruct (num_cmp x y) as [[]|]; split; congruence. Qed.

Lemma num_gtb_cmp x y : num_gtb x y = true ↔ num_cmp x y = Some Gt.
Proof. unfold num_gtb. destruct (num_cmp x y) as [[]|]; split; congruence. Qed.

Lemma num_cmp_0_1 x y :
  num_eqb x (PInt 0) = true → num_eqb y (PInt 1) = true → num_cmp x y = Some Lt.
Proof.
  rewrite !num_eqb_cmp. intros Hx Hy.
  now rewrite (num_cmp_eq_l _ _ y Hx), (num_cmp_eq_r _ _ _ Hy).
Qed.

Lemma num_cmp_0_0 x y :
  num_eqb x (PInt 0) = true → num_eqb y (PInt 0) = true → num_cmp x y = Some Eq.
Proof.
  rewrite !num_eqb_cmp. intros Hx Hy.
  now rewrite (num_cmp_eq_l _ _ y Hx), (num_cmp_eq_r _ _ _ Hy).
Qed.

Lemma at_end_first a b :
  num_eqb (atEnd a) (PInt 0) = true →
  num_eqb (atEnd b) (PInt 1) = true →
  __lt__ a (VSortTuple b) = Ok (PyBool true).
Proof.
  intros Ha Hb. apply key_cmp_lt. simpl.
  now rewrite (num_cmp_0_1 _ _ Ha Hb).
Qed.

(** X11. A key stored at the end sorts after every key that is not:
    with [a.atEnd == 0] and [b.atEnd == 1], [a < b] and [b > a] hold
    whatever the other fields are. *)
Theorem at_end_keys_last (a b : SortTuple) :
  num_eqb (atEnd a) (PInt 0) = true →
  num_eqb (atEnd b) (PInt 1) = true →
  __lt__ a (VSortTuple b) = Ok (PyBool true)
  ∧ __gt__ b (VSortTuple a) = Ok (PyBool true).
Proof.
  intros Ha Hb. apply key_cmp_lt. simpl.
  now rewrite (num_cmp_0_1 _ _ Ha Hb).
Qed.

Lemma at_end_keys_last_witness :
  __lt__ st (VSortTuple ts_st) = Ok (PyBool true)
  ∧ __gt__ ts_st (VSortTuple st) = Ok (PyBool true).
Proof. apply (at_end_keys_last st ts_st); reflexivity. Defined.

(** X12. Among keys that are not at the end the offset decides first:
    with [a.atEnd == 0 == b.atEnd] and [a.offset < b.offset], [a < b]
    holds whatever the priorities, class orders, grace flags and insertion
    indices are. *)
Theorem offset_decides (a b : SortTuple) :
  num_eqb (atEnd a) (PInt 0) = true →
  num_eqb (atEnd b) (PInt 0) = true →
  num_ltb (offset a) (offset b) = true →
  __lt__ a (VSortTuple b) = Ok (PyBool true)
  ∧ __gt__ b (VSortTuple a) = Ok (PyBool true).
Proof.
  intros Ha Hb Ho. apply key_cmp_lt. simpl.
  apply num_ltb_cmp in Ho. now rewrite (num_cmp_0_0 _ _ Ha Hb), Ho.
Qed.

Lemma offset_decides_witness :
  __lt__ ZeroSortTupleHigh (VSortTuple st) = Ok (PyBool true)
  ∧ __gt__ st (VSortTuple ZeroSortTupleHigh) = Ok (PyBool true).
Proof. apply (offset_decides ZeroSortTupleHigh st); reflexivity. Defined.

(** X13. The two sentinels bound the keys at offset zero: a key with
    [atEnd == 0], [offset == 0] and a finite priority is greater than
    [ZeroSortTupleLow] and less than [ZeroSortTupleHigh], whatever its
    other fields. *)
Theorem zero_sentinels_bound (k : SortTuple) :
  num_eqb (atEnd k) (PInt 0) = true →
  num_eqb (offset k) (PInt 0) = true →
  finite (priority k) →
  __lt__ ZeroSortTupleLow (VSortTuple k) = Ok (PyBool true)
  ∧ __lt__ k (VSortTuple ZeroSortTupleHigh) = Ok (PyBool true).
Proof.
  intros Ha Ho Hp. split.
  - apply key_cmp_lt. simpl.
    rewrite (num_cmp_0_0 (PInt 0) (atEnd k) eq_refl Ha).
    rewrite (num_cmp_0_0 (PFloat (Fin 0)) (offset k) eq_refl Ho).
    unfold finite in Hp. unfold num_cmp. simpl.
    now destruct (exact (priority k)).
  - apply key_cmp_lt. simpl.
    rewrite (num_cmp_0_0 (atEnd k) (PInt 0) Ha eq_refl).
    rewrite (num_cmp_0_0 (offset k) (PFloat (Fin 0)) Ho eq_refl).
    unfold finite in Hp. unfold num_cmp. simpl.
    now destruct (exact (priority k)).
Qed.

Lemma zero_sentinels_bound_witness :
  __lt__ ZeroSortTupleLow (VSortTuple ZeroSortTupleDefault) = Ok (PyBool true)
  ∧ __lt__ ZeroSortTupleDefault (VSortTuple ZeroSortTupleHigh) = Ok (PyBool true).
Proof.
  apply (zero_sentinels_bound ZeroSortTupleDefault); [reflexivity|reflexivity|exact I].
Defined.

(** ** Keys and bare offsets *)

(** X14. Against a real number [x], a key whose offset is a real number
    is in exactly one of the relations [k < x], [k == x], [k > x],
    whether or not it is at the end. *)
Theorem scalar_trichotomy (k : SortTuple) (x : pynum) :
  real (offset k) → real x →
  exactly_one (__lt__ k (VAtom (ANum x)) = Ok (PyBool true))
              (__eq__ k (VAtom (ANum x)) = Ok (PyBool true))
              (__gt__ k (VAtom (ANum x)) = Ok (PyBool true)).
Proof.
  intros Ho Hx. unfold exactly_one, __lt__, __eq__, __gt__, py_ne.
  destruct (num_eqb (atEnd k) (PInt 1)); simpl.
  - destruct (num_eqb x INFINITY); simpl.
    + right; left. repeat split; congruence.
    + right; right. repeat split; congruence.
  - unfold num_ltb, num_eqb, num_gtb.
    destruct (num_cmp_real _ _ Ho Hx) as [[] ->].
    + right; left. repeat split; congruence.
    + left. repeat split; congruence.
    + right; right. repeat split; congruence.
Qed.

Lemma scalar_trichotomy_witness :
  exactly_one (__lt__ st (VAtom (ANum (PFrac (9 # 2)))) = Ok (PyBool true))
              (__eq__ st (VAtom (ANum (PFrac (9 # 2)))) = Ok (PyBool true))
              (__gt__ st (VAtom (ANum (PFrac (9 # 2)))) = Ok (PyBool true)).
Proof. apply (scalar_trichotomy st (PFrac (9 # 2))); reflexivity. Defined.

(** X15. A key at the end is an upper bound of every scalar: for any
    scalar operand [x], a number or not, [k >= x] is [True] and [k < x]
    is [False], and [k <= x] holds only for positive infinity. *)
Theorem at_end_upper_bound (k : SortTuple) (x : atom) :
  num_eqb (atEnd k) (PInt 1) = true →
  __ge__ k (VAtom x) = Ok (PyBool true)
  ∧ __lt__ k (VAtom x) = Ok (PyBool false)
  ∧ __le__ k (VAtom x) = Ok (PyBool (py_eq x (ANum INFINITY))).
Proof.
  intros Hk. unfold __ge__, __le__, __gt__, __lt__, __eq__, py_ne. rewrite Hk.
  simpl. now destruct (py_eq x (ANum INFINITY)).
Qed.

Lemma at_end_upper_bound_witness :
  __ge__ ts_st (VAtom (AStr "abc")) = Ok (PyBool true)
  ∧ __lt__ ts_st (VAtom (AStr "abc")) = Ok (PyBool false)
  ∧ __le__ ts_st (VAtom (AStr "abc")) = Ok (PyBool false).
Proof. apply (at_end_upper_bound ts_st (AStr "abc")). reflexivity. Defined.

Lemma num_cmp_lt_le x y z :
  num_cmp x y = Some Lt →
  num_cmp z y = Some Gt ∨ num_cmp z y = Some Eq →
  num_cmp x z = Some Lt.
Proof.
  intros Hxy [Hzy|Hzy].
  - apply (float_cmp_trans Lt _ (exact y)); [exact Hxy|].
    change (num_cmp y z = Some Lt). now rewrite (num_cmp_antisym z y), Hzy.
  - rewrite (num_cmp_eq_r x z y Hzy). exact Hxy.
Qed.

(** X16. A bare offset separates keys as their own order does: if a key
    [a] that is not at the end is less than the number [x], and a key [b]
    whose flag [atEnd] is 0 or 1 is greater than or equal to [x], then
    [a < b] in the order of keys. *)
Theorem offset_separates (a b : SortTuple) (x : pynum) :
  num_eqb (atEnd a) (PInt 0) = true →
  flag (atEnd b) →
  __lt__ a (VAtom (ANum x)) = Ok (PyBool true) →
  __ge__ b (VAtom (ANum x)) = Ok (PyBool true) →
  __lt__ a (VSortTuple b) = Ok (PyBool true).
Proof.
  intros Ha [Hb|Hb] Hax Hbx.
  - apply key_cmp_lt. simpl. rewrite (num_cmp_0_0 _ _ Ha Hb).
    unfold __lt__ in Hax. rewrite (num_eqb_0_not_1 _ Ha) in Hax.
    unfold __ge__, __gt__, __eq__ in Hbx. rewrite (num_eqb_0_not_1 _ Hb) in Hbx.
    simpl in Hax, Hbx.
    assert (Hlt : num_cmp (offset a) x = Some Lt).
    { apply num_ltb_cmp. now injection Hax. }
    rewrite (num_cmp_lt_le _ _ _ Hlt); [reflexivity|].
    destruct (num_gtb (offset b) x) eqn:G.
    + left. now apply num_gtb_cmp.
    + right. apply num_eqb_cmp. now injection Hbx.
  - now apply at_end_first.
Qed.

Lemma offset_separates_witness :
  __lt__ st (VSortTuple ts_st) = Ok (PyBool true).
Proof.
  apply (offset_separates st ts_st (PFloat (Fin 5)));
    [reflexivity|right; reflexivity|reflexivity|reflexivity].
Defined.

(** ** What the comparisons raise *)

Lemma tuple_richcmp_raises op v w e :
  tuple_richcmp op v w = Raise e → e = TypeError.
Proof.
  revert w. induction v as [|x v IH]; intros [|y w]; simpl; try discriminate.
  destruct (item_eq x y); [apply IH|].
  destruct op; simpl; [discriminate| |];
    destruct x, y; simpl; try discriminate; now intros [= <-].
Qed.

Lemma eq_bool k x : ∃ b, __eq__ k x = Ok (PyBool b).
Proof.
  destruct x as [o|t|b]; unfold __eq__, super_richcmp.
  - destruct (num_eqb (atEnd k) (PInt 1) && py_ne o (ANum INFINITY));
      [|destruct (num_eqb (atEnd k) (PInt 1))]; simpl; eauto.
  - rewrite tuple_eq_items. simpl. eauto.
  - rewrite tuple_eq_items. simpl. eauto.
Qed.

Lemma ordering_raises op k t e :
  super_richcmp op k t = Raise e → e = TypeError.
Proof.
  unfold super_richcmp.
  destruct (tuple_richcmp op (astuple k) t) as [b|e'] eqn:E; [discriminate|].
  simpl. intros [= <-]. exact (tuple_richcmp_raises _ _ _ _ E).
Qed.

Lemma lt_raises k x e : __lt__ k x = Raise e → e = TypeError.
Proof.
  destruct x as [o|t|b]; unfold __lt__; try apply ordering_raises.
  destruct (num_eqb (atEnd k) (PInt 1)); [discriminate|].
  destruct o as [n|s|]; simpl; try discriminate; now intros [= <-].
Qed.

Lemma gt_raises k x e : __gt__ k x = Raise e → e = TypeError.
Proof.
  destruct x as [o|t|b]; unfold __gt__; try apply ordering_raises.
  destruct (num_eqb (atEnd k) (PInt 1) && py_ne o (ANum INFINITY));
    [discriminate|].
  destruct (num_eqb (atEnd k) (PInt 1)); [discriminate|].
  destruct o as [n|s|]; simpl; try discriminate; now intros [= <-].
Qed.

(** X17. Equality never fails: for every operand, [k == x] and [k != x]
    return booleans, the one the negation of the other.  An ordering can
    only raise [TypeError], and [k <= x] (resp. [k >= x]) raises exactly
    when [k < x] (resp. [k > x]) does. *)
Theorem comparison_errors (k : SortTuple) (x : pyval) :
  (∃ b : bool, __eq__ k x = Ok (PyBool b) ∧ __ne__ k x = Ok (PyBool (negb b)))
  ∧ (∀ e : exn, __lt__ k x = Raise e → e = TypeError)
  ∧ (∀ e : exn, __gt__ k x = Raise e → e = TypeError)
  ∧ (∀ e : exn, __le__ k x = Raise e ↔ __lt__ k x = Raise e)
  ∧ (∀ e : exn, __ge__ k x = Raise e ↔ __gt__ k x = Raise e).
Proof.
  destruct (eq_bool k x) as [b Hb].
  split; [exists b; unfold __ne__; now rewrite Hb|].
  split; [apply lt_raises|]. split; [apply gt_raises|].
  unfold __le__, __ge__. rewrite Hb. split; intros e.
  - destruct (__lt__ k x) as [r|e']; simpl; [|tauto].
    destruct (truth r); split; discriminate.
  - destruct (__gt__ k x) as [r|e']; simpl; [|tauto].
    destruct (truth r); split; discriminate.
Qed.

(** ** [add] and [sub], once more *)

Lemma num_cmp_1_1 x y :
  num_eqb x (PInt 1) = true → num_eqb y (PInt 1) = true → num_cmp x y = Some Eq.
Proof.
  rewrite !num_eqb_cmp. intros Hx Hy.
  now rewrite (num_cmp_eq_l _ _ y Hx), (num_cmp_eq_r _ _ _ Hy).
Qed.

Lemma num_cmp_1_0 x y :
  num_eqb x (PInt 1) = true → num_eqb y (PInt 0) = true → num_cmp x y = Some Gt.
Proof.
  intros Hx Hy. now rewrite (num_cmp_antisym y x), (num_cmp_0_1 _ _ Hy Hx).
Qed.

Lemma py_max_is_1 x y :
  flag x → flag y →
  num_eqb (py_max x y) (PInt 1) = num_eqb x (PInt 1) || num_eqb y (PInt 1).
Proof.
  intros [Hx|Hx] [Hy|Hy]; unfold py_max, num_gtb.
  - now rewrite (num_cmp_0_0 _ _ Hy Hx), (num_eqb_0_not_1 _ Hx),
      (num_eqb_0_not_1 _ Hy).
  - now rewrite (num_cmp_1_0 _ _ Hy Hx), (num_eqb_0_not_1 _ Hx), Hy.
  - now rewrite (num_cmp_0_1 _ _ Hy Hx), (num_eqb_0_not_1 _ Hy), Hx.
  - now rewrite (num_cmp_1_1 _ _ Hy Hx), Hx, Hy.
Qed.

Lemma py_min_is_1 x y :
  flag x → flag y →
  num_eqb (py_min x y) (PInt 1) = num_eqb x (PInt 1) && num_eqb y (PInt 1).
Proof.
  intros [Hx|Hx] [Hy|Hy]; unfold py_min, num_ltb.
  - now rewrite (num_cmp_0_0 _ _ Hy Hx), (num_eqb_0_not_1 _ Hx),
      (num_eqb_0_not_1 _ Hy).
  - now rewrite (num_cmp_1_0 _ _ Hy Hx), (num_eqb_0_not_1 _ Hx), Hy.
  - now rewrite (num_cmp_0_1 _ _ Hy Hx), (num_eqb_0_not_1 _ Hy), Hx.
  - now rewrite (num_cmp_1_1 _ _ Hy Hx), Hx, Hy.
Qed.

Section Combination_laws.
Context `{FloatArith}.

(** X18. [add] and [sub] refuse every operand that is not a [SortTuple],
    a plain tuple of six values included: they raise [SortingException],
    with the same message from both, exactly when the operand is not a
    [SortTuple], and they return a key only for a [SortTuple]. *)
Theorem add_sub_operand (k : SortTuple) (x : pyval) :
  (add k x = Raise (SortingException "Cannot add attributes from a different class")
   ↔ ∀ b : SortTuple, x ≠ VSortTuple b)
  ∧ (sub k x = Raise (SortingException "Cannot add attributes from a different class")
     ↔ ∀ b : SortTuple, x ≠ VSortTuple b)
  ∧ ((∃ s : SortTuple, add k x = Ok s) → ∃ b : SortTuple, x = VSortTuple b)
  ∧ ((∃ d : SortTuple, sub k x = Ok d) → ∃ b : SortTuple, x = VSortTuple b).
Proof.
  destruct x as [o|t|b].
  - repeat split; try discriminate; intros [? [=]].
  - repeat split; try discriminate; intros [? [=]].
  - split; [|split; [|split]].
    + split.
      * intros Hk. apply add_raises in Hk. discriminate Hk.
      * intros Hx. now destruct (Hx b).
    + split.
      * intros Hk. apply sub_raises in Hk. discriminate Hk.
      * intros Hx. now destruct (Hx b).
    + eauto.
    + eauto.
Qed.

(** X19. The flags saturate: for operands whose flags are 0 or 1, a flag
    of the key that [a.add(b)] returns is 1 exactly when it is 1 in [a] or
    in [b], and a flag of the key that [a.sub(b)] returns is 1 exactly when
    it is 1 in both. *)
Theorem flags_saturate (a b : SortTuple) :
  flag (atEnd a) → flag (isNotGrace a) →
  flag (atEnd b) → flag (isNotGrace b) →
  (∀ s : SortTuple,
     add a (VSortTuple b) = Ok s →
     num_eqb (atEnd s) (PInt 1)
     = num_eqb (atEnd a) (PInt 1) || num_eqb (atEnd b) (PInt 1)
     ∧ num_eqb (isNotGrace s) (PInt 1)
       = num_eqb (isNotGrace a) (PInt 1) || num_eqb (isNotGrace b) (PInt 1))
  ∧ (∀ d : SortTuple,
     sub a (VSortTuple b) = Ok d →
     num_eqb (atEnd d) (PInt 1)
     = num_eqb (atEnd a) (PInt 1) && num_eqb (atEnd b) (PInt 1)
     ∧ num_eqb (isNotGrace d) (PInt 1)
       = num_eqb (isNotGrace a) (PInt 1) && num_eqb (isNotGrace b) (PInt 1)).
Proof.
  intros Haa Hag Hba Hbg. split.
  - intros s Hs. apply add_Ok in Hs as (-> & _ & _ & _ & -> & _).
    now rewrite !py_max_is_1.
  - intros d Hd. apply sub_Ok in Hd as (-> & _ & _ & _ & -> & _).
    now rewrite !py_min_is_1.
Qed.

End Combination_laws.

Lemma flags_saturate_witness :
  (∀ s : SortTuple,
     @add doctest_floats st (VSortTuple ts_st) = Ok s →
     num_eqb (atEnd s) (PInt 1)
     = num_eqb (atEnd st) (PInt 1) || num_eqb (atEnd ts_st) (PInt 1)
     ∧ num_eqb (isNotGrace s) (PInt 1)
       = num_eqb (isNotGrace st) (PInt 1) || num_eqb (isNotGrace ts_st) (PInt 1))
  ∧ (∀ d : SortTuple,
     @sub doctest_floats st (VSortTuple ts_st) = Ok d →
     num_eqb (atEnd d) (PInt 1)
     = num_eqb (atEnd st) (PInt 1) && num_eqb (atEnd ts_st) (PInt 1)
     ∧ num_eqb (isNotGrace d) (PInt 1)
       = num_eqb (isNotGrace st) (PInt 1) && num_eqb (isNotGrace ts_st) (PInt 1)).
Proof.
  apply (@flags_saturate doctest_floats st ts_st);
    (left; reflexivity) || (right; reflexivity).
Defined.

Lemma Qcompare_Eq p q : Qeq p q → Qcompare p q = Eq.
Proof. apply Qeq_alt. Qed.

Section Inverse.
Context `{FloatArith}.

Lemma py_add_sub x y :
  exact_type x → exact_type y →
  ∃ s r, py_add x y = Ok s ∧ py_sub s y = Ok r ∧ num_eqb r x = true.
Proof.
  destruct x as [a|f|p], y as [b|g|q]; try contradiction; intros _ _;
    do 2 eexists; (split; [reflexivity|]); (split; [reflexivity|]);
    apply num_eqb_cmp; unfold num_cmp; simpl; f_equal; apply Qcompare_Eq.
  - now rewrite Z.add_simpl_r.
  - rewrite !Qred_correct. ring.
  - rewrite !Qred_correct. ring.
  - rewrite !Qred_correct. ring.
Qed.

Lemma py_min_max x y : real x → real y → num_eqb (py_min (py_max x y) y) y = true.
Proof.
  intros Hx Hy. unfold py_max, py_min, num_gtb, num_ltb.
  destruct (num_cmp y x) as [[]|] eqn:E.
  - rewrite E. apply num_eqb_cmp. now rewrite (num_cmp_antisym y x), E.
  - rewrite E. apply num_eqb_cmp. now apply num_cmp_refl.
  - rewrite (num_cmp_refl y Hy). apply num_eqb_cmp. now apply num_cmp_refl.
  - destruct (num_cmp_real y x Hy Hx) as [c Hc]. congruence.
Qed.

(** X20. [sub] undoes [add] on the fields that are added, not on the
    flags: when [offset], [priority], [classSortOrder] and [insertIndex]
    of both keys are of exact types ([int] or [Fraction]),
    [a.add(b).sub(b)] has these four fields equal to those of [a]; its
    flags [atEnd] and [isNotGrace], if real, are those of [b]. *)
Theorem add_then_sub (a b : SortTuple) :
  exact_type (offset a) → exact_type (priority a) →
  exact_type (classSortOrder a) → exact_type (insertIndex a) →
  exact_type (offset b) → exact_type (priority b) →
  exact_type (classSortOrder b) → exact_type (insertIndex b) →
  ∃ r : SortTuple,
    (s ← add a (VSortTuple b); sub s (VSortTuple b)) = Ok r
    ∧ num_eqb (offset r) (offset a) = true
    ∧ num_eqb (priority r) (priority a) = true
    ∧ num_eqb (classSortOrder r) (classSortOrder a) = true
    ∧ num_eqb (insertIndex r) (insertIndex a) = true
    ∧ (real (atEnd a) → real (atEnd b) → num_eqb (atEnd r) (atEnd b) = true)
    ∧ (real (isNotGrace a) → real (isNotGrace b) →
       num_eqb (isNotGrace r) (isNotGrace b) = true).
Proof.
  intros Hao Hap Hac Hai Hbo Hbp Hbc Hbi.
  destruct (py_add_sub _ _ Hao Hbo) as (so & ro & Eso & Ero & Ho).
  destruct (py_add_sub _ _ Hap Hbp) as (sp & rp & Esp & Erp & Hp).
  destruct (py_add_sub _ _ Hac Hbc) as (sc & rc & Esc & Erc & Hc).
  destruct (py_add_sub _ _ Hai Hbi) as (si & ri & Esi & Eri & Hi).
  rewrite add_unfold, Eso, Esp, Esc, Esi. cbn [mbind result_bind].
  rewrite sub_unfold. cbn [offset priority classSortOrder insertIndex].
  rewrite Ero, Erp, Erc, Eri. cbn [mbind result_bind].
  eexists. split; [reflexivity|]. simpl.
  repeat split; auto using py_min_max.
Qed.

End Inverse.

Lemma add_then_sub_witness :
  ∃ r : SortTuple,
    (s ← @add doctest_floats
           (mkSortTuple (PInt 0) (PFrac (1 # 3)) (PInt 0) (PInt 20) (PInt 1) (PInt 7))
           (VSortTuple
              (mkSortTuple (PInt 1) (PInt 10) (PInt 0) (PInt (-20)) (PInt 1) (PInt 0)));
     @sub doctest_floats s
       (VSortTuple
          (mkSortTuple (PInt 1) (PInt 10) (PInt 0) (PInt (-20)) (PInt 1) (PInt 0))))
    = Ok r
    ∧ num_eqb (offset r) (PFrac (1 # 3)) = true
    ∧ num_eqb (priority r) (PInt 0) = true
    ∧ num_eqb (classSortOrder r) (PInt 20) = true
    ∧ num_eqb (insertIndex r) (PInt 7) = true
    ∧ (real (PInt 0) → real (PInt 1) → num_eqb (atEnd r) (PInt 1) = true)
    ∧ (real (PInt 1) → real (PInt 1) → num_eqb (isNotGrace r) (PInt 1) = true).
Proof.
  apply (@add_then_sub doctest_floats
           (mkSortTuple (PInt 0) (PFrac (1 # 3)) (PInt 0) (PInt 20) (PInt 1) (PInt 7))
           (mkSortTuple (PInt 1) (PInt 10) (PInt 0) (PInt (-20)) (PInt 1) (PInt 0)));
    exact I.
Defined.

(** ** A value of [atEnd] other than 0 and 1 *)

Section Out_of_domain.
Context `{FloatArith}.


End Out_of_domain.

